(** * V4L2Camera: device state machine, frame buffer and worker-thread wait

    A shallow embedding of [src/libraries/camera/V4L2Camera.cpp].

    - C [int] values are [Z] with 32-bit two's-complement wrap-around
      written out ([wrap32]); [/] is C's truncating division ([Z.quot]).
    - The free store is a finite map from block addresses to byte lists
      ([gmap nat (list byte)]); a pointer is [option nat] with [None] for
      [NULL].  An access outside a live block has no defined behaviour in
      C and is a fault ([None]) in the [ub] monad.
    - Calls into the operating system ([select], [read], [write], [close],
      [pipe]) and into [android::Thread] take their results from an
      environment record and are logged on an event trace.
    - [pthread_cond_wait] suspends the caller: functions that may wait
      return an outcome that is either a return or the condition variable
      waited on, and are resumed behind the wait. *)

From Stdlib Require Import ZArith Lia List Bool.
From Stdlib.Strings Require Import Byte.
From stdpp Require Import base option numbers list gmap.

Local Open Scope Z_scope.

(** ** C integers *)

Module CInt.

Definition INT_MIN : Z := - 2 ^ 31.
Definition INT_MAX : Z := 2 ^ 31 - 1.

(** Reduction of a mathematical integer to the [int] it wraps to. *)
Definition wrap32 (z : Z) : Z := (z + 2 ^ 31) mod 2 ^ 32 - 2 ^ 31.

Definition in_int (z : Z) : Prop := INT_MIN <= z <= INT_MAX.

Definition imul (a b : Z) : Z := wrap32 (a * b).
Definition iadd (a b : Z) : Z := wrap32 (a + b).
Definition idiv (a b : Z) : Z := wrap32 (Z.quot a b).

End CInt.
Export CInt.

(** ** Status codes and V4L2 pixel formats *)

Definition status_t := Z.

Definition NO_ERROR : status_t := 0.
Definition OK : status_t := 0.
Definition ENOMEM : status_t := 12.
Definition EINVAL : status_t := 22.

(** [v4l2_fourcc(a, b, c, d)] of [linux/videodev2.h]. *)
Definition v4l2_fourcc (a b c d : byte) : Z :=
  Z.lor (Z.of_N (Byte.to_N a))
    (Z.lor (Z.shiftl (Z.of_N (Byte.to_N b)) 8)
       (Z.lor (Z.shiftl (Z.of_N (Byte.to_N c)) 16)
              (Z.shiftl (Z.of_N (Byte.to_N d)) 24))).

Definition V4L2_PIX_FMT_YVU420 : Z := Eval cbv in v4l2_fourcc "Y" "V" "1" "2".
Definition V4L2_PIX_FMT_YUV420 : Z := Eval cbv in v4l2_fourcc "Y" "U" "1" "2".
Definition V4L2_PIX_FMT_NV21 : Z := Eval cbv in v4l2_fourcc "N" "V" "2" "1".
Definition V4L2_PIX_FMT_NV12 : Z := Eval cbv in v4l2_fourcc "N" "V" "1" "2".

(** The four formats [commonStartDevice] accepts. *)
Definition supported_format (pix_fmt : Z) : bool :=
  (pix_fmt =? V4L2_PIX_FMT_YVU420) || (pix_fmt =? V4L2_PIX_FMT_YUV420)
  || (pix_fmt =? V4L2_PIX_FMT_NV21) || (pix_fmt =? V4L2_PIX_FMT_NV12).

(** ** The free store *)

Definition ptr := option nat.
Definition NULL : ptr := None.

Module Mem.

(** Faulting computations: [None] is an access C leaves undefined. *)
Definition ub (A : Type) := option A.

Definition load (h : gmap nat (list byte)) (p : nat) (off : Z) : ub byte :=
  if off <? 0 then None
  else blk ← h !! p; blk !! Z.to_nat off.

Definition store (h : gmap nat (list byte)) (p : nat) (off : Z) (v : byte)
  : ub (gmap nat (list byte)) :=
  if off <? 0 then None
  else blk ← h !! p;
       if off <? Z.of_nat (length blk)
       then Some (<[p := <[Z.to_nat off := v]> blk]> h)
       else None.

(** [memcpy(dst, src, n)]: [n] arrives as a [size_t], so a negative
    [int] is a length no block has; both ranges must lie inside their
    blocks and must not overlap. *)
Definition memcpy (h : gmap nat (list byte)) (dst src : nat) (n : Z)
  : ub (gmap nat (list byte)) :=
  if n <? 0 then None
  else s ← h !! src;
       d ← h !! dst;
       if (n <=? Z.of_nat (length s)) && (n <=? Z.of_nat (length d))
       then if bool_decide (dst = src) && (0 <? n) then None
            else Some (<[dst := take (Z.to_nat n) s ++ drop (Z.to_nat n) d]> h)
       else None.

(** Outcome of a [new uint8_t[n]] request, decided by the allocator:
    refusal, or storage whose bytes are whatever [junk] holds. *)
Inductive new_outcome :=
| NewFails
| NewGives (junk : nat -> byte).

(** [new uint8_t[n]].  A negative element count never yields storage;
    refusal is the null pointer the caller tests for. *)
Definition new_array (h : gmap nat (list byte)) (n : Z) (o : new_outcome)
  : gmap nat (list byte) * ptr :=
  match o with
  | NewFails => (h, NULL)
  | NewGives junk =>
      if n <? 0 then (h, NULL)
      else let a := fresh (dom h) in
           (<[a := map junk (seq 0 (Z.to_nat n))]> h, Some a)
  end.

(** [delete[] p] for a non-null [p].  Where [a] holds no block, as in a
    second [delete[]] of the same pointer, the store stays as it is:
    whether a block is deleted twice is read off the frame pointer, not
    off the store. *)
Definition delete_array (h : gmap nat (list byte)) (a : nat)
  : gmap nat (list byte) := delete a h.

End Mem.

(** ** Device state *)

(** Modelled from the spec: the state enumeration of [V4L2Camera.h], which
    is not among the sources.  Section 3 lists the four states
    Constructed, Initialized, Started and Stopped-but-initialized (here
    [ECDS_CONNECTED]); [ECDS_CONSTRUCTED] and [ECDS_INITIALIZED] are the
    names the source uses. *)
Inductive EmulatedCameraDeviceState :=
| ECDS_CONSTRUCTED
| ECDS_INITIALIZED
| ECDS_CONNECTED
| ECDS_STARTED.

#[global] Instance EmulatedCameraDeviceState_eq_dec :
  EqDecision EmulatedCameraDeviceState.
Proof. solve_decision. Defined.

(** The control-channel ends a worker thread object holds. *)
Record WorkerThread := mkWorkerThread {
  mThreadControl : Z;
  mControlFD : Z
}.

(** The members this file reads or writes.  The locks and condition
    variables themselves carry no data; waiting on them is an [outcome]
    below. *)
Record V4L2Camera := mkV4L2Camera {
  mCurFrameTimestamp : Z;
  mCurrentFrame : ptr;
  mFrameWidth : Z;
  mFrameHeight : Z;
  mPixelFormat : Z;
  mTotalPixels : Z;
  mFrameBufferSize : Z;
  mState : EmulatedCameraDeviceState;
  mWorkerThread : option WorkerThread;
  mTakingPicture : bool;
  mInPictureThread : bool;
  mThreadRunning : bool
}.

Definition set_mCurrentFrame (p : ptr) (d : V4L2Camera) : V4L2Camera :=
  mkV4L2Camera (mCurFrameTimestamp d) p (mFrameWidth d) (mFrameHeight d)
    (mPixelFormat d) (mTotalPixels d) (mFrameBufferSize d) (mState d)
    (mWorkerThread d) (mTakingPicture d) (mInPictureThread d)
    (mThreadRunning d).

Definition set_mFrameBufferSize (n : Z) (d : V4L2Camera) : V4L2Camera :=
  mkV4L2Camera (mCurFrameTimestamp d) (mCurrentFrame d) (mFrameWidth d)
    (mFrameHeight d) (mPixelFormat d) (mTotalPixels d) n (mState d)
    (mWorkerThread d) (mTakingPicture d) (mInPictureThread d)
    (mThreadRunning d).

(** The four cached frame attributes, assigned together. *)
Definition set_frame_info (w h fmt total : Z) (d : V4L2Camera) : V4L2Camera :=
  mkV4L2Camera (mCurFrameTimestamp d) (mCurrentFrame d) w h fmt total
    (mFrameBufferSize d) (mState d) (mWorkerThread d) (mTakingPicture d)
    (mInPictureThread d) (mThreadRunning d).

Definition set_mState (st : EmulatedCameraDeviceState) (d : V4L2Camera)
  : V4L2Camera :=
  mkV4L2Camera (mCurFrameTimestamp d) (mCurrentFrame d) (mFrameWidth d)
    (mFrameHeight d) (mPixelFormat d) (mTotalPixels d) (mFrameBufferSize d)
    st (mWorkerThread d) (mTakingPicture d) (mInPictureThread d)
    (mThreadRunning d).

Definition set_mWorkerThread (wt : option WorkerThread) (d : V4L2Camera)
  : V4L2Camera :=
  mkV4L2Camera (mCurFrameTimestamp d) (mCurrentFrame d) (mFrameWidth d)
    (mFrameHeight d) (mPixelFormat d) (mTotalPixels d) (mFrameBufferSize d)
    (mState d) wt (mTakingPicture d) (mInPictureThread d) (mThreadRunning d).

Definition set_mThreadRunning (b : bool) (d : V4L2Camera) : V4L2Camera :=
  mkV4L2Camera (mCurFrameTimestamp d) (mCurrentFrame d) (mFrameWidth d)
    (mFrameHeight d) (mPixelFormat d) (mTotalPixels d) (mFrameBufferSize d)
    (mState d) (mWorkerThread d) (mTakingPicture d) (mInPictureThread d) b.

(** The constructor's initialiser list.  The frame attributes are not
    initialised there; [w0 .. sz0] stand for whatever the object's storage
    held. *)
Definition V4L2Camera_ctor (w0 h0 fmt0 total0 sz0 : Z) : V4L2Camera :=
  {| mCurFrameTimestamp := 0;
     mCurrentFrame := NULL;
     mFrameWidth := w0; mFrameHeight := h0; mPixelFormat := fmt0;
     mTotalPixels := total0; mFrameBufferSize := sz0;
     mState := ECDS_CONSTRUCTED;
     mWorkerThread := None;
     mTakingPicture := false;
     mInPictureThread := false;
     mThreadRunning := false |}.

(** Modelled from the spec: [isInitialized] and [isStarted], inline members
    of the absent [V4L2Camera.h].  A device is initialized once it has left
    the Constructed state (section 4.1, "Transitions Constructed →
    Initialized"), and started exactly in the Started state. *)
Definition isInitialized (d : V4L2Camera) : bool :=
  negb (bool_decide (mState d = ECDS_CONSTRUCTED)).

Definition isStarted (d : V4L2Camera) : bool :=
  bool_decide (mState d = ECDS_STARTED).

Definition getWorkerThread (d : V4L2Camera) : option WorkerThread :=
  mWorkerThread d.

(** What the calls out of this file did, in order. *)
Inductive event :=
| EvNewWorkerThread
| EvStartThread (one_burst : bool)
| EvPipe
| EvWrite (fd msg count : Z)
| EvRequestExitAndWait
| EvClose (fd : Z)
| EvSelect (nfds : Z) (fds : gset Z) (tvp : option (Z * Z))
| EvRead (fd count : Z).

(** ** Public API: Initialize *)

(** [new_worker] is what [new WorkerThread(this)] evaluates to: the
    constructed object, or [None] for a null result. *)
Definition Initialize (new_worker : option WorkerThread) (d : V4L2Camera)
  : status_t * V4L2Camera * list event :=
  if isInitialized d then (NO_ERROR, d, [])
  else
    let d1 := set_mWorkerThread new_worker d in
    match getWorkerThread d1 with
    | None => (ENOMEM, d1, [EvNewWorkerThread])
    | Some _ => (NO_ERROR, set_mState ECDS_INITIALIZED d1, [EvNewWorkerThread])
    end.

(** ** Private API: commonStartDevice, commonStopDevice *)

Definition commonStartDevice (width height pix_fmt : Z) (o : Mem.new_outcome)
    (d : V4L2Camera) (h : gmap nat (list byte))
  : status_t * V4L2Camera * gmap nat (list byte) :=
  if supported_format pix_fmt then
    let d1 := set_mFrameBufferSize (idiv (imul (imul width height) 12) 8) d in
    let d2 := set_frame_info width height pix_fmt (imul width height) d1 in
    let '(h', p) := Mem.new_array h (mFrameBufferSize d2) o in
    let d3 := set_mCurrentFrame p d2 in
    match mCurrentFrame d3 with
    | None => (ENOMEM, d3, h')
    | Some _ => (NO_ERROR, d3, h')
    end
  else (EINVAL, d, h).

Definition commonStopDevice (d : V4L2Camera) (h : gmap nat (list byte))
  : V4L2Camera * gmap nat (list byte) :=
  let d1 := set_frame_info 0 0 0 0 d in
  match mCurrentFrame d1 with
  | Some a => (set_mCurrentFrame NULL d1, Mem.delete_array h a)
  | None => (d1, h)
  end.

(** The destructor releases the frame buffer if one is held. *)
Definition V4L2Camera_dtor (d : V4L2Camera) (h : gmap nat (list byte))
  : gmap nat (list byte) :=
  match mCurrentFrame d with
  | Some a => Mem.delete_array h a
  | None => h
  end.

(** ** Preview read-out *)

(** [for (int i = 0; i < lim; i += 2)]: the values [i] takes.  [lim] is
    half an [int], so [i + 2] stays in range. *)
Definition pair_indices (lim : Z) : list Z :=
  map (fun k => 2 * Z.of_nat k) (seq 0 (Z.to_nat ((lim + 1) / 2))).

(** Runs a loop body over the successive values of the loop variable,
    threading the store and stopping at the first fault. *)
Fixpoint for_each (body : Z -> gmap nat (list byte) -> Mem.ub (gmap nat (list byte)))
    (ixs : list Z) (h : gmap nat (list byte)) : Mem.ub (gmap nat (list byte)) :=
  match ixs with
  | [] => Some h
  | i :: ixs' => h' ← body i h; for_each body ixs' h'
  end.

(** One iteration of the chroma loop, at pair offset [i] behind [uv]:
    [dst_uv[i] = src_uv[i + 1]; dst_uv[i + 1] = src_uv[i];]. *)
Definition NV12ToNV21_body (nv12 nv21 : nat) (uv : Z) (i : Z)
    (h : gmap nat (list byte)) : Mem.ub (gmap nat (list byte)) :=
  a ← Mem.load h nv12 (uv + (i + 1));
  h1 ← Mem.store h nv21 (uv + i) a;
  b ← Mem.load h1 nv12 (uv + i);
  Mem.store h1 nv21 (uv + (i + 1)) b.

Definition NV12ToNV21 (h : gmap nat (list byte)) (nv12 nv21 : nat)
    (width height : Z) : Mem.ub (gmap nat (list byte)) :=
  let uv := imul width height in
  h1 ← Mem.memcpy h nv21 nv12 (imul width height);
  for_each (NV12ToNV21_body nv12 nv21 uv)
           (pair_indices (idiv (imul width height) 2)) h1.

(** A conversion routine of [Converters.h]: source block, destination
    block, width, height. *)
Definition converter :=
  gmap nat (list byte) -> nat -> nat -> Z -> Z -> Mem.ub (gmap nat (list byte)).

Section Preview.

(** The build-time switch of [CameraDebug.h] and the RGB converters of
    [Converters.h]; neither header is among the sources. *)
Variable PREVIEW_FMT_RGBA32 : bool.
Variables YV12ToRGB32 YU12ToRGB32 NV21ToRGB32 NV12ToRGB32 : converter.

Definition getCurrentPreviewFrame (buffer : ptr) (d : V4L2Camera)
    (h : gmap nat (list byte)) : Mem.ub (status_t * gmap nat (list byte)) :=
  if negb (isStarted d) then Some (EINVAL, h)
  else
    match mCurrentFrame d, buffer with
    | Some frame, Some buf =>
        if PREVIEW_FMT_RGBA32 then
          if mPixelFormat d =? V4L2_PIX_FMT_YVU420 then
            h' ← YV12ToRGB32 h frame buf (mFrameWidth d) (mFrameHeight d);
            Some (NO_ERROR, h')
          else if mPixelFormat d =? V4L2_PIX_FMT_YUV420 then
            h' ← YU12ToRGB32 h frame buf (mFrameWidth d) (mFrameHeight d);
            Some (NO_ERROR, h')
          else if mPixelFormat d =? V4L2_PIX_FMT_NV21 then
            h' ← NV21ToRGB32 h frame buf (mFrameWidth d) (mFrameHeight d);
            Some (NO_ERROR, h')
          else if mPixelFormat d =? V4L2_PIX_FMT_NV12 then
            h' ← NV12ToRGB32 h frame buf (mFrameWidth d) (mFrameHeight d);
            Some (NO_ERROR, h')
          else Some (EINVAL, h)
        else
          if mPixelFormat d =? V4L2_PIX_FMT_NV21 then
            h' ← Mem.memcpy h buf frame
                   (idiv (imul (imul (mFrameWidth d) (mFrameHeight d)) 3) 2);
            Some (OK, h')
          else if mPixelFormat d =? V4L2_PIX_FMT_NV12 then
            h' ← NV12ToNV21 h frame buf (mFrameWidth d) (mFrameHeight d);
            Some (OK, h')
          else Some (OK, h)
    | _, _ => Some (EINVAL, h)
    end.

End Preview.

(** Pairwise exchange of neighbours, the chroma reordering between the two
    semiplanar layouts as section 4.3 words it ("swap each adjacent chroma
    byte pair"). *)
Fixpoint swap_pairs (l : list byte) : list byte :=
  match l with
  | a :: b :: r => b :: a :: swap_pairs r
  | _ => l
  end.

(** ** Worker thread *)

(** A control message as it travels through the pipe: the raw [int] a
    [read] delivers, which need not be a declared enumerator. *)
Definition ControlMessage := Z.

(** [sizeof(ControlMessage)]: an [enum] has the size of [int]. *)
Definition sizeof_ControlMessage : Z := 4.

Inductive SelectRes :=
| TIMEOUT
| READY
| EXIT_THREAD
| ERROR.

(** Results of the calls a worker thread makes outside this file. *)
Record ThreadEnv := mkThreadEnv {
  (** [pipe(fds)]: result, [errno], read end, write end *)
  sys_pipe : Z * Z * Z * Z;
  (** [write(fd, &msg, count)], retried while interrupted: result, [errno] *)
  sys_write : Z -> ControlMessage -> Z -> Z * Z;
  (** [Thread::requestExitAndWait()] *)
  requestExitAndWait : status_t;
  (** [Thread::run], reached through [startThread] *)
  startThread : bool -> status_t;
  (** [select(nfds, fds, NULL, NULL, tvp)], retried while interrupted:
      result and the descriptors left set *)
  sys_select : Z -> gset Z -> option (Z * Z) -> Z * gset Z;
  (** [read(fd, &msg, count)], retried while interrupted: result and the
      value left in [msg] *)
  sys_read : Z -> Z -> Z * ControlMessage
}.

Definition FD_ZERO : gset Z := ∅.
Definition FD_SET (fd : Z) (fds : gset Z) : gset Z := {[fd]} ∪ fds.
Definition FD_ISSET (fd : Z) (fds : gset Z) : bool := bool_decide (fd ∈ fds).

Section Worker.

(** The one enumerator of [ControlMessage], declared in the absent
    header. *)
Variable THREAD_STOP : ControlMessage.

Variable env : ThreadEnv.

Definition readyToRun (wt : WorkerThread)
  : status_t * WorkerThread * list event :=
  let '(res, errno, rd, wr) := sys_pipe env in
  if res =? 0 then (NO_ERROR, mkWorkerThread wr rd, [EvPipe])
  else (errno, wt, [EvPipe]).

Definition stopThread (wt : WorkerThread)
  : status_t * WorkerThread * list event :=
  if mThreadControl wt >=? 0 then
    let msg := THREAD_STOP in
    let '(wres, errno) := sys_write env (mThreadControl wt) msg
                            sizeof_ControlMessage in
    let ev_w := EvWrite (mThreadControl wt) msg sizeof_ControlMessage in
    if wres =? sizeof_ControlMessage then
      let res := requestExitAndWait env in
      if res =? NO_ERROR then
        let '(tc, ev1) :=
          if mThreadControl wt >=? 0
          then (-1, [EvClose (mThreadControl wt)])
          else (mThreadControl wt, []) in
        let '(cf, ev2) :=
          if mControlFD wt >=? 0
          then (-1, [EvClose (mControlFD wt)])
          else (mControlFD wt, []) in
        (res, mkWorkerThread tc cf,
         ev_w :: EvRequestExitAndWait :: ev1 ++ ev2)
      else (res, wt, [ev_w; EvRequestExitAndWait])
    else ((if errno =? 0 then EINVAL else errno), wt, [ev_w])
  else (EINVAL, wt, []).

(** The three arguments [Select] hands to [select]: the descriptor
    count, the set with the control end and, if valid, [fd], and the
    timeout ([NULL] when [timeout] is zero). *)
Definition Select_fd_num (wt : WorkerThread) (fd : Z) : Z :=
  if fd >=? 0 then iadd (Z.max fd (mControlFD wt)) 1
  else iadd (mControlFD wt) 1.

Definition Select_fds (wt : WorkerThread) (fd : Z) : gset Z :=
  let fds := FD_SET (mControlFD wt) FD_ZERO in
  if fd >=? 0 then FD_SET fd fds else fds.

Definition Select_tvp (timeout : Z) : option (Z * Z) :=
  if timeout =? 0 then None
  else Some (Z.quot timeout 1000000, Z.rem timeout 1000000).

Definition Select (wt : WorkerThread) (fd timeout : Z)
  : SelectRes * list event :=
  let fd_num := Select_fd_num wt fd in
  let tvp := Select_tvp timeout in
  let '(res, fds) := sys_select env fd_num (Select_fds wt fd) tvp in
  let ev_s := EvSelect fd_num (Select_fds wt fd) tvp in
  if res <? 0 then (ERROR, [ev_s])
  else if res =? 0 then (TIMEOUT, [ev_s])
  else if FD_ISSET (mControlFD wt) fds then
    let '(res, msg) := sys_read env (mControlFD wt) sizeof_ControlMessage in
    let ev_r := EvRead (mControlFD wt) sizeof_ControlMessage in
    if negb (res =? sizeof_ControlMessage) then (ERROR, [ev_s; ev_r])
    else if msg =? THREAD_STOP then (EXIT_THREAD, [ev_s; ev_r])
    else (ERROR, [ev_s; ev_r])
  else (READY, [ev_s]).

(** *** Worker thread management *)

(** What a call that may wait comes to: it returns, it is suspended in
    [pthread_cond_wait] on a condition variable, or it dereferences a
    null worker pointer. *)
Inductive CondVar :=
| mCondTakePhotoEnd
| mCondThreadRunning.

Inductive outcome :=
| Returns (res : status_t) (d : V4L2Camera) (tr : list event)
| Waits (cv : CondVar)
| Faults.

Definition startWorkerThread (one_burst : bool) (d : V4L2Camera) : outcome :=
  if negb (isInitialized d) then Returns EINVAL d []
  else
    match getWorkerThread d with
    | None => Faults
    | Some _ => Returns (startThread env one_burst) d [EvStartThread one_burst]
    end.

Definition stopWorkerThread (d : V4L2Camera) : outcome :=
  if negb (isInitialized d) then Returns EINVAL d []
  else
    match getWorkerThread d with
    | None => Faults
    | Some wt =>
        let '(res, wt', tr) := stopThread wt in
        Returns res (set_mWorkerThread (Some wt') d) tr
    end.

Definition startDeliveringFrames (one_burst : bool) (d : V4L2Camera)
  : outcome :=
  let d := set_mThreadRunning false d in
  if negb (isStarted d) then Returns EINVAL d []
  else startWorkerThread one_burst d.

(** [stopDeliveringFrames] from the test of [isStarted] on: the code
    behind both waits. *)
Definition stopDeliveringFrames_stop (d : V4L2Camera) : outcome :=
  if negb (isStarted d) then Returns NO_ERROR d []
  else stopWorkerThread d.

(** From the test of [mThreadRunning] on: where the caller continues
    when the wait for the end of a picture is over. *)
Definition stopDeliveringFrames_running (d : V4L2Camera) : outcome :=
  if negb (mThreadRunning d) then Waits mCondThreadRunning
  else stopDeliveringFrames_stop d.

Definition stopDeliveringFrames (d : V4L2Camera) : outcome :=
  if mTakingPicture d then Waits mCondTakePhotoEnd
  else stopDeliveringFrames_running d.

(** The caller woken from a wait goes on behind it, with the device as
    the other threads have left it; neither flag is tested again. *)
Definition stopDeliveringFrames_resume (cv : CondVar) (d : V4L2Camera)
  : outcome :=
  match cv with
  | mCondTakePhotoEnd => stopDeliveringFrames_running d
  | mCondThreadRunning => stopDeliveringFrames_stop d
  end.

End Worker.

(** Stand-in for the RGB converters where [PREVIEW_FMT_RGBA32] is off and
    none of them is called. *)
Definition no_converter : converter := fun _ _ _ _ _ => None.

(** What the destination receives from a frame block [s] with [n] luma
    bytes, by stored format, as sections 4.3 and 8 word it: the whole
    frame for NV21, the luma plane followed by the pair-swapped chroma
    plane for NV12. *)
Definition preview_of_nv21 (n : nat) (s : list byte) : list byte :=
  take (n + n / 2) s.

Definition preview_of_nv12 (n : nat) (s : list byte) : list byte :=
  take n s ++ swap_pairs (take (n / 2) (drop n s)).

(** A scene for examples: a device taken through [Initialize] and
    [commonStartDevice width height pix_fmt], put in the Started state,
    whose frame block (address 0) holds the bytes 0, 1, 2, ... and a
    zero-filled destination block of the same size (address 1). *)
Definition sample_byte (k : nat) : byte := default "000"%byte (Byte.of_nat k).

Definition sample_scene (width height pix_fmt : Z)
  : V4L2Camera * gmap nat (list byte) * nat :=
  let d0 := (Initialize (Some (mkWorkerThread (-1) (-1)))
               (V4L2Camera_ctor 0 0 0 0 0)).1.2 in
  let r := commonStartDevice width height pix_fmt
             (Mem.NewGives sample_byte) d0 ∅ in
  let d := set_mState ECDS_STARTED r.1.2 in
  let a := Mem.new_array r.2 (mFrameBufferSize d)
             (Mem.NewGives (fun _ => "000"%byte)) in
  (d, a.1, default 0%nat a.2).

(** An environment for examples: the pipe is created as descriptors 3
    and 4, writes and the thread calls succeed, [select] reports
    [ready] out of the descriptors asked for, and one [read] delivers
    [msg] in full. *)
Definition sample_env (ready : gset Z) (msg : ControlMessage) : ThreadEnv :=
  {| sys_pipe := (0, 0, 3, 4);
     sys_write := fun _ _ count => (count, 0);
     requestExitAndWait := NO_ERROR;
     startThread := fun _ => NO_ERROR;
     sys_select := fun _ fds _ => (Z.of_nat (size (fds ∩ ready)), fds ∩ ready);
     sys_read := fun _ count => (count, msg) |}.

(** The base class's loop body: it ends the thread loop at once; derived
    classes override it. *)
Definition inWorkerThread : bool := false.

(** ** Which members a call leaves alone *)

(** [d'] has the frame pointer and the cached frame attributes of [d]. *)
Definition frame_untouched (d d' : V4L2Camera) : Prop :=
  mCurrentFrame d' = mCurrentFrame d /\
  mFrameWidth d' = mFrameWidth d /\ mFrameHeight d' = mFrameHeight d /\
  mPixelFormat d' = mPixelFormat d /\ mTotalPixels d' = mTotalPixels d /\
  mFrameBufferSize d' = mFrameBufferSize d.

(** [d'] has the state, the worker object, the flags and the timestamp of
    [d]. *)
Definition control_untouched (d d' : V4L2Camera) : Prop :=
  mState d' = mState d /\ mWorkerThread d' = mWorkerThread d /\
  mTakingPicture d' = mTakingPicture d /\
  mInPictureThread d' = mInPictureThread d /\
  mThreadRunning d' = mThreadRunning d /\
  mCurFrameTimestamp d' = mCurFrameTimestamp d.

(** The store [h'] differs from [h] at most in the contents of block
    [dst]: every other block is the same, and every block, [dst]
    included, is live in both or neither and has kept its length. *)
Definition only_wrote (dst : nat) (h h' : gmap nat (list byte)) : Prop :=
  (forall a, a <> dst -> h' !! a = h !! a) /\
  (forall a, length <$> h' !! a = length <$> h !! a).

(** Number of iterations of the chroma loop of [NV12ToNV21], and the
    number of bytes behind the block start that it reaches, for given
    dimensions. *)
Definition chroma_pairs (width height : Z) : nat :=
  Z.to_nat ((idiv (imul width height) 2 + 1) / 2).

Definition NV12ToNV21_reach (width height : Z) : nat :=
  (Z.to_nat (imul width height) + 2 * chroma_pairs width height)%nat.

(** ** Properties under test, as predicates *)

(** The frame attributes and the frame pointer of [d'] are those of [d]. *)
Definition frame_fields_kept (d d' : V4L2Camera) : Prop :=
  mFrameWidth d' = mFrameWidth d /\ mFrameHeight d' = mFrameHeight d /\
  mPixelFormat d' = mPixelFormat d /\ mTotalPixels d' = mTotalPixels d /\
  mFrameBufferSize d' = mFrameBufferSize d /\
  mCurrentFrame d' = mCurrentFrame d.

(** The block [d] held is gone from the store [h'], unless its address is
    the one [d'] holds now. *)
Definition old_frame_released (d d' : V4L2Camera)
    (h' : gmap nat (list byte)) : Prop :=
  forall a, mCurrentFrame d = Some a -> mCurrentFrame d' <> Some a ->
            h' !! a = None.

(** * Properties *)

(** ** C integers *)

Lemma wrap32_id z : in_int z -> wrap32 z = z.
Proof.
  unfold in_int, INT_MIN, INT_MAX, wrap32. intros H.
  rewrite Z.mod_small by lia. lia.
Qed.

Lemma wrap32_range z : in_int (wrap32 z).
Proof.
  unfold in_int, INT_MIN, INT_MAX, wrap32.
  pose proof (Z.mod_pos_bound (z + 2 ^ 31) (2 ^ 32)). lia.
Qed.

Lemma imul_exact a b : in_int (a * b) -> imul a b = a * b.
Proof. apply wrap32_id. Qed.

Lemma in_int_quot a b : in_int a -> 0 < b -> in_int (Z.quot a b).
Proof.
  unfold in_int, INT_MIN, INT_MAX. intros Ha Hb.
  destruct (Z.le_gt_cases 0 a) as [Hpos | Hneg].
  - pose proof (Z.quot_pos a b Hpos Hb).
    pose proof (Z.quot_le_upper_bound a b a Hb ltac:(nia)). lia.
  - assert (Hq : Z.quot a b = - Z.quot (- a) b)
      by (rewrite Z.quot_opp_l by lia; lia).
    pose proof (Z.quot_pos (- a) b ltac:(lia) Hb).
    pose proof (Z.quot_le_upper_bound (- a) b (- a) Hb ltac:(nia)). lia.
Qed.

Lemma idiv_exact a b : in_int a -> 0 < b -> idiv a b = Z.quot a b.
Proof. intros Ha Hb. apply wrap32_id, in_int_quot; assumption. Qed.

(** Closes a range goal once the bounds of [int] are numerals. *)
Ltac int_range := unfold in_int, INT_MIN, INT_MAX in *; lia.

(** [w * h * a / b] as the source computes it, when nothing overflows. *)
Lemma scaled_pixels w h a b :
  0 <= w * h -> 1 <= a -> 0 < b -> w * h * a <= INT_MAX ->
  idiv (imul (imul w h) a) b = w * h * a / b.
Proof.
  intros H0 Ha Hb Hmax.
  assert (Hle : w * h <= w * h * a) by nia.
  rewrite (imul_exact w h) by int_range.
  rewrite (imul_exact (w * h) a) by (unfold in_int, INT_MIN, INT_MAX in *; nia).
  rewrite idiv_exact by (try assumption; unfold in_int, INT_MIN, INT_MAX in *; nia).
  apply Z.quot_div_nonneg; nia.
Qed.

(** Within [int] and for a non-negative pixel count, the two size
    expressions of the source, [w * h * 12 / 8] and [w * h * 3 / 2], are
    the luma plane plus half of it. *)
Lemma frame_size_12_8 w h :
  0 <= w * h -> w * h * 12 <= INT_MAX ->
  idiv (imul (imul w h) 12) 8 = w * h + w * h / 2.
Proof.
  intros H0 H1. rewrite scaled_pixels by (try assumption; lia).
  pose proof (Z.div_mod (w * h * 12) 8 ltac:(lia)).
  pose proof (Z.mod_pos_bound (w * h * 12) 8 ltac:(lia)).
  pose proof (Z.div_mod (w * h) 2 ltac:(lia)).
  pose proof (Z.mod_pos_bound (w * h) 2 ltac:(lia)). lia.
Qed.

Lemma frame_size_3_2 w h :
  0 <= w * h -> w * h * 3 <= INT_MAX ->
  idiv (imul (imul w h) 3) 2 = w * h + w * h / 2.
Proof.
  intros H0 H1. rewrite scaled_pixels by (try assumption; lia).
  pose proof (Z.div_mod (w * h * 3) 2 ltac:(lia)).
  pose proof (Z.mod_pos_bound (w * h * 3) 2 ltac:(lia)).
  pose proof (Z.div_mod (w * h) 2 ltac:(lia)).
  pose proof (Z.mod_pos_bound (w * h) 2 ltac:(lia)). lia.
Qed.

Lemma half_pixels w h :
  0 <= w * h -> w * h <= INT_MAX -> idiv (imul w h) 2 = w * h / 2.
Proof.
  intros H0 H1.
  rewrite imul_exact by int_range.
  rewrite idiv_exact by (try lia; int_range).
  apply Z.quot_div_nonneg; lia.
Qed.

Lemma half_to_nat n : 0 <= n -> Z.to_nat (n / 2) = (Z.to_nat n / 2)%nat.
Proof. intros Hn. rewrite Z2Nat.inj_div by lia. reflexivity. Qed.

(** ** The free store *)

Lemma new_array_null h n o :
  (Mem.new_array h n o).2 = NULL -> (Mem.new_array h n o).1 = h.
Proof.
  unfold Mem.new_array. destruct o as [| junk]; [reflexivity |].
  destruct (n <? 0); [reflexivity | discriminate].
Qed.

Lemma new_array_fresh h n o a :
  (Mem.new_array h n o).2 = Some a ->
  h !! a = None /\
  exists junk, o = Mem.NewGives junk /\ 0 <= n /\
    (Mem.new_array h n o).1 = <[a := map junk (seq 0 (Z.to_nat n))]> h.
Proof.
  unfold Mem.new_array. destruct o as [| junk]; [discriminate |].
  destruct (n <? 0) eqn:Hn; [discriminate |]. cbn. intros [= <-].
  split.
  - apply not_elem_of_dom, is_fresh.
  - exists junk. repeat split. apply Z.ltb_ge in Hn. exact Hn.
Qed.

(** ** Initialize *)

Lemma Initialize_success_initialized o d d1 tr :
  Initialize o d = (NO_ERROR, d1, tr) -> isInitialized d1 = true.
Proof.
  unfold Initialize. destruct (isInitialized d) eqn:Hi.
  - intros [= <- _]. exact Hi.
  - destruct o as [wt |]; cbn; [| discriminate].
    intros [= <- _]. reflexivity.
Qed.

(** C8. [Initialize] on a device that is already initialized (in
    particular on one a successful [Initialize] has returned) answers
    [NO_ERROR], leaves every field of the device as it was, and creates no
    worker-thread object. *)
Theorem Initialize_again_is_noop (o : option WorkerThread) (d : V4L2Camera) :
  (isInitialized d = true \/
   exists o0 d0 tr0, Initialize o0 d0 = (NO_ERROR, d, tr0)) ->
  Initialize o d = (NO_ERROR, d, []).
Proof.
  intros H.
  assert (Hi : isInitialized d = true).
  { destruct H as [H | (o0 & d0 & tr0 & H)]; [exact H |].
    eapply Initialize_success_initialized; exact H. }
  unfold Initialize. rewrite Hi. reflexivity.
Qed.

Lemma Initialize_again_is_noop_witness :
  let d0 := V4L2Camera_ctor 0 0 0 0 0 in
  let wt := mkWorkerThread (-1) (-1) in
  let d1 := set_mState ECDS_INITIALIZED (set_mWorkerThread (Some wt) d0) in
  Initialize (Some wt) d0 = (NO_ERROR, d1, [EvNewWorkerThread]) /\
  Initialize (Some (mkWorkerThread 7 8)) d1 = (NO_ERROR, d1, []).
Proof.
  cbv zeta. split; [reflexivity |].
  apply Initialize_again_is_noop. right.
  exists (Some (mkWorkerThread (-1) (-1))), (V4L2Camera_ctor 0 0 0 0 0),
    [EvNewWorkerThread].
  reflexivity.
Defined.

(** ** commonStartDevice and commonStopDevice *)

Lemma supported_format_false fmt :
  fmt <> V4L2_PIX_FMT_YVU420 -> fmt <> V4L2_PIX_FMT_YUV420 ->
  fmt <> V4L2_PIX_FMT_NV21 -> fmt <> V4L2_PIX_FMT_NV12 ->
  supported_format fmt = false.
Proof.
  intros H1 H2 H3 H4. unfold supported_format.
  apply Z.eqb_neq in H1, H2, H3, H4. rewrite H1, H2, H3, H4. reflexivity.
Qed.

(** C4. A pixel format outside the four supported ones makes
    [commonStartDevice] answer [EINVAL] and return the device (all its
    fields) and the store exactly as it received them. *)
Theorem commonStartDevice_unsupported_format
    (width height pix_fmt : Z) (o : Mem.new_outcome)
    (d : V4L2Camera) (h : gmap nat (list byte)) :
  pix_fmt <> V4L2_PIX_FMT_YVU420 -> pix_fmt <> V4L2_PIX_FMT_YUV420 ->
  pix_fmt <> V4L2_PIX_FMT_NV21 -> pix_fmt <> V4L2_PIX_FMT_NV12 ->
  commonStartDevice width height pix_fmt o d h = (EINVAL, d, h).
Proof.
  intros H1 H2 H3 H4. unfold commonStartDevice.
  rewrite supported_format_false by assumption. reflexivity.
Qed.

Lemma commonStartDevice_unsupported_format_witness :
  let d := set_mState ECDS_INITIALIZED (V4L2Camera_ctor 1 2 3 4 5) in
  let rgb565 := v4l2_fourcc "R" "G" "B" "P" in
  rgb565 <> V4L2_PIX_FMT_YVU420 /\ rgb565 <> V4L2_PIX_FMT_YUV420 /\
  rgb565 <> V4L2_PIX_FMT_NV21 /\ rgb565 <> V4L2_PIX_FMT_NV12 /\
  commonStartDevice 640 480 rgb565 Mem.NewFails d ∅ = (EINVAL, d, ∅).
Proof.
  cbv zeta.
  assert (H1 : v4l2_fourcc "R" "G" "B" "P" <> V4L2_PIX_FMT_YVU420) by (vm_compute; discriminate).
  assert (H2 : v4l2_fourcc "R" "G" "B" "P" <> V4L2_PIX_FMT_YUV420) by (vm_compute; discriminate).
  assert (H3 : v4l2_fourcc "R" "G" "B" "P" <> V4L2_PIX_FMT_NV21) by (vm_compute; discriminate).
  assert (H4 : v4l2_fourcc "R" "G" "B" "P" <> V4L2_PIX_FMT_NV12) by (vm_compute; discriminate).
  split; [exact H1 |]. split; [exact H2 |]. split; [exact H3 |].
  split; [exact H4 |].
  apply commonStartDevice_unsupported_format; assumption.
Defined.

(** A successful [commonStartDevice], taken apart. *)
Lemma commonStartDevice_success w hgt fmt o d h d' h' :
  commonStartDevice w hgt fmt o d h = (NO_ERROR, d', h') ->
  let size := idiv (imul (imul w hgt) 12) 8 in
  exists a junk,
    supported_format fmt = true /\ o = Mem.NewGives junk /\ 0 <= size /\
    h !! a = None /\
    h' = <[a := map junk (seq 0 (Z.to_nat size))]> h /\
    d' = set_mCurrentFrame (Some a)
           (set_frame_info w hgt fmt (imul w hgt)
              (set_mFrameBufferSize size d)).
Proof.
  unfold commonStartDevice.
  destruct (supported_format fmt); [| discriminate]. cbn.
  destruct (Mem.new_array h (idiv (imul (imul w hgt) 12) 8) o)
    as [h1 p] eqn:Hnew.
  destruct p as [a |]; cbn; [| discriminate].
  intros [= <- <-].
  pose proof (new_array_fresh h (idiv (imul (imul w hgt) 12) 8) o a) as Hf.
  rewrite Hnew in Hf.
  destruct (Hf eq_refl) as (Hnone & junk & Ho & Hn & Hh). cbn in Hh.
  exists a, junk. repeat split; assumption.
Qed.

(** The block a successful start allocates is as long as the read-out
    is: [w * h * 12 / 8] and [w * h * 3 / 2] agree. *)
Lemma commonStartDevice_block_holds_frame w hgt fmt o d h d' h' :
  commonStartDevice w hgt fmt o d h = (NO_ERROR, d', h') ->
  0 <= w * hgt -> w * hgt * 12 <= INT_MAX ->
  let n := Z.to_nat (mFrameWidth d' * mFrameHeight d') in
  exists a blk, mCurrentFrame d' = Some a /\ h' !! a = Some blk /\
                length blk = (n + n / 2)%nat.
Proof.
  intros Hstart H0 Hmax.
  destruct (commonStartDevice_success _ _ _ _ _ _ _ _ Hstart)
    as (a & junk & _ & _ & _ & _ & -> & ->). cbn.
  eexists a, _. split; [reflexivity |]. split; [apply lookup_insert_eq |].
  rewrite length_map, length_seq, frame_size_12_8 by assumption.
  assert (0 <= w * hgt / 2) by (apply Z.div_pos; lia).
  rewrite Z2Nat.inj_add, (half_to_nat (w * hgt)) by lia. reflexivity.
Qed.

(** C6, as stated, fails: the size is computed in [int].  At 46341 x 46341
    with NV21 the pixel count and its product by 12 wrap around;
    [commonStartDevice] succeeds, records 6949 bytes and allocates a block
    of 6949 bytes, where [width * height * 12 / 8] is 3221232421. *)
Lemma commonStartDevice_buffer_size_wraps :
  let d0 := V4L2Camera_ctor 0 0 0 0 0 in
  let r := commonStartDevice 46341 46341 V4L2_PIX_FMT_NV21
             (Mem.NewGives (fun _ => "000"%byte)) d0 ∅ in
  supported_format V4L2_PIX_FMT_NV21 = true /\
  r.1.1 = NO_ERROR /\
  mFrameBufferSize r.1.2 = 6949 /\
  46341 * 46341 * 12 / 8 = 3221232421 /\
  mFrameBufferSize r.1.2 <> 46341 * 46341 * 12 / 8 /\
  exists a blk, mCurrentFrame r.1.2 = Some a /\ r.2 !! a = Some blk /\
                Z.of_nat (length blk) = 6949.
Proof.
  cbv zeta.
  split; [reflexivity |].
  split; [vm_compute; reflexivity |].
  split; [vm_compute; reflexivity |].
  split; [vm_compute; reflexivity |].
  split; [vm_compute; discriminate |].
  destruct (commonStartDevice 46341 46341 V4L2_PIX_FMT_NV21
              (Mem.NewGives (fun _ => "000"%byte))
              (V4L2Camera_ctor 0 0 0 0 0) ∅) as [[res d'] h'] eqn:Hr.
  assert (Hres : res = NO_ERROR)
    by (apply (f_equal (fun r => r.1.1)) in Hr; vm_compute in Hr;
        symmetry; exact Hr).
  subst res.
  destruct (commonStartDevice_success _ _ _ _ _ _ _ _ Hr)
    as (a & junk & _ & _ & _ & _ & -> & ->). cbn.
  eexists a, _. split; [reflexivity |]. split; [apply lookup_insert_eq |].
  rewrite length_map, length_seq. vm_compute. reflexivity.
Qed.

(** C6, amended.  For every supported format and every width and height
    whose product [width * height * 12] is representable as an [int], a
    successful [commonStartDevice] records exactly
    [width * height * 12 / 8] as the frame-buffer size and holds a live
    block of exactly that many bytes. *)
Theorem commonStartDevice_buffer_size
    (width height pix_fmt : Z) (o : Mem.new_outcome)
    (d d' : V4L2Camera) (h h' : gmap nat (list byte)) :
  supported_format pix_fmt = true ->
  in_int (width * height * 12) ->
  commonStartDevice width height pix_fmt o d h = (NO_ERROR, d', h') ->
  mFrameBufferSize d' = Z.quot (width * height * 12) 8 /\
  0 <= width * height /\
  mFrameBufferSize d' = width * height * 12 / 8 /\
  exists a blk, mCurrentFrame d' = Some a /\ h' !! a = Some blk /\
                Z.of_nat (length blk) = width * height * 12 / 8.
Proof.
  intros _ Hin Hstart.
  destruct (commonStartDevice_success _ _ _ _ _ _ _ _ Hstart)
    as (a & junk & _ & _ & Hn & _ & -> & ->). cbn.
  assert (Hwh : in_int (width * height)) by int_range.
  assert (Hsz : idiv (imul (imul width height) 12) 8
                = Z.quot (width * height * 12) 8).
  { rewrite (imul_exact width height Hwh), (imul_exact _ 12 Hin).
    apply idiv_exact; [exact Hin | lia]. }
  rewrite Hsz in Hn |- *.
  assert (Hpos : 0 <= width * height).
  { destruct (Z_lt_le_dec (width * height) 0) as [Hneg | Hge]; [| exact Hge].
    exfalso.
    assert (Hq : Z.quot (width * height * 12) 8
                 = - Z.quot (- (width * height * 12)) 8)
      by (rewrite Z.quot_opp_l by lia; lia).
    assert (0 < Z.quot (- (width * height * 12)) 8)
      by (apply Z.quot_str_pos; lia).
    lia. }
  assert (Hdiv : Z.quot (width * height * 12) 8 = width * height * 12 / 8)
    by (apply Z.quot_div_nonneg; lia).
  split; [reflexivity |]. split; [exact Hpos |]. split; [exact Hdiv |].
  eexists a, _. split; [reflexivity |]. split.
  - apply lookup_insert_eq.
  - rewrite length_map, length_seq. lia.
Qed.

Lemma commonStartDevice_buffer_size_witness :
  let d0 := V4L2Camera_ctor 0 0 0 0 0 in
  let r := commonStartDevice 4 2 V4L2_PIX_FMT_NV12
             (Mem.NewGives (fun _ => "000"%byte)) d0 ∅ in
  supported_format V4L2_PIX_FMT_NV12 = true /\
  in_int (4 * 2 * 12) /\
  r = (NO_ERROR, r.1.2, r.2) /\
  mFrameBufferSize r.1.2 = 12 /\
  exists a blk, mCurrentFrame r.1.2 = Some a /\ r.2 !! a = Some blk /\
                Z.of_nat (length blk) = 12.
Proof.
  cbv zeta.
  assert (Hs : supported_format V4L2_PIX_FMT_NV12 = true) by reflexivity.
  assert (Hin : in_int (4 * 2 * 12)) by (unfold in_int, INT_MIN, INT_MAX; lia).
  assert (Hr : commonStartDevice 4 2 V4L2_PIX_FMT_NV12
                 (Mem.NewGives (fun _ => "000"%byte))
                 (V4L2Camera_ctor 0 0 0 0 0) ∅
               = (NO_ERROR,
                  (commonStartDevice 4 2 V4L2_PIX_FMT_NV12
                     (Mem.NewGives (fun _ => "000"%byte))
                     (V4L2Camera_ctor 0 0 0 0 0) ∅).1.2,
                  (commonStartDevice 4 2 V4L2_PIX_FMT_NV12
                     (Mem.NewGives (fun _ => "000"%byte))
                     (V4L2Camera_ctor 0 0 0 0 0) ∅).2))
    by (vm_compute; reflexivity).
  split; [exact Hs |]. split; [exact Hin |]. split; [exact Hr |].
  destruct (commonStartDevice_buffer_size _ _ _ _ _ _ _ _ Hs Hin Hr)
    as (Hsz & _ & _ & Hblk).
  split; [exact Hsz |]. exact Hblk.
Defined.

(** C5, as stated, fails: a device holding a 2x2 NV21 frame buffer is
    asked for a 4x4 NV12 one and the allocator refuses.  The call answers
    [ENOMEM], but the frame attributes already hold the new request and the
    frame pointer is null. *)
Lemma commonStartDevice_ENOMEM_overwrites :
  let o := Mem.NewGives (fun _ => "000"%byte) in
  let r0 := commonStartDevice 2 2 V4L2_PIX_FMT_NV21 o
              (V4L2Camera_ctor 0 0 0 0 0) ∅ in
  let d := r0.1.2 in
  let r := commonStartDevice 4 4 V4L2_PIX_FMT_NV12 Mem.NewFails d r0.2 in
  r0.1.1 = NO_ERROR /\ mFrameWidth d = 2 /\ mCurrentFrame d = Some 0%nat /\
  r.1.1 = ENOMEM /\ mFrameWidth r.1.2 = 4 /\ mCurrentFrame r.1.2 = NULL /\
  ~ frame_fields_kept d r.1.2.
Proof.
  cbv zeta. repeat (split; [vm_compute; reflexivity |]).
  intros (Hw & _). vm_compute in Hw. discriminate.
Qed.

(** C5, amended.  When the allocation inside [commonStartDevice] fails,
    the call answers [ENOMEM] and leaves the store, [mState], the worker
    object and the flags as they were; the frame attributes hold the
    values just requested and [mCurrentFrame] is null. *)
Theorem commonStartDevice_alloc_failure
    (width height pix_fmt : Z) (o : Mem.new_outcome)
    (d : V4L2Camera) (h : gmap nat (list byte)) :
  supported_format pix_fmt = true ->
  (Mem.new_array h (idiv (imul (imul width height) 12) 8) o).2 = NULL ->
  exists d',
    commonStartDevice width height pix_fmt o d h = (ENOMEM, d', h) /\
    mFrameWidth d' = width /\ mFrameHeight d' = height /\
    mPixelFormat d' = pix_fmt /\ mTotalPixels d' = imul width height /\
    mFrameBufferSize d' = idiv (imul (imul width height) 12) 8 /\
    mCurrentFrame d' = NULL /\
    mState d' = mState d /\ mWorkerThread d' = mWorkerThread d /\
    mTakingPicture d' = mTakingPicture d /\
    mInPictureThread d' = mInPictureThread d /\
    mThreadRunning d' = mThreadRunning d /\
    mCurFrameTimestamp d' = mCurFrameTimestamp d.
Proof.
  intros Hs Hnull. unfold commonStartDevice. rewrite Hs. cbn.
  pose proof (new_array_null h _ o Hnull) as Hh.
  destruct (Mem.new_array h (idiv (imul (imul width height) 12) 8) o)
    as [h1 p]. cbn in Hnull, Hh. subst p h1. cbn.
  eexists. split; [reflexivity |]. cbn. repeat split.
Qed.

Lemma commonStartDevice_alloc_failure_witness :
  let d := set_mState ECDS_INITIALIZED (V4L2Camera_ctor 0 0 0 0 0) in
  supported_format V4L2_PIX_FMT_NV21 = true /\
  (Mem.new_array ∅ (idiv (imul (imul 640 480) 12) 8) Mem.NewFails).2 = NULL /\
  exists d',
    commonStartDevice 640 480 V4L2_PIX_FMT_NV21 Mem.NewFails d ∅
      = (ENOMEM, d', ∅) /\
    mFrameWidth d' = 640 /\ mCurrentFrame d' = NULL /\
    mState d' = ECDS_INITIALIZED.
Proof.
  cbv zeta. split; [reflexivity |]. split; [reflexivity |].
  destruct (commonStartDevice_alloc_failure 640 480 V4L2_PIX_FMT_NV21
              Mem.NewFails
              (set_mState ECDS_INITIALIZED (V4L2Camera_ctor 0 0 0 0 0)) ∅
              eq_refl eq_refl)
    as (d' & Hr & Hw & _ & _ & _ & _ & Hp & Hst & _).
  exists d'. split; [exact Hr |]. split; [exact Hw |].
  split; [exact Hp |]. exact Hst.
Defined.

(** C7, as stated, fails: two successful [commonStartDevice] calls in a
    row leave two live blocks; the first is still in the store and no
    longer referenced by the device. *)
Lemma commonStartDevice_twice_leaks :
  let o := Mem.NewGives (fun _ => "000"%byte) in
  let r0 := commonStartDevice 2 2 V4L2_PIX_FMT_NV21 o
              (V4L2Camera_ctor 0 0 0 0 0) ∅ in
  let r := commonStartDevice 4 2 V4L2_PIX_FMT_NV21 o r0.1.2 r0.2 in
  r0.1.1 = NO_ERROR /\ r.1.1 = NO_ERROR /\
  mCurrentFrame r0.1.2 = Some 0%nat /\ mCurrentFrame r.1.2 = Some 1%nat /\
  length <$> r.2 !! 0%nat = Some 6%nat /\
  length <$> r.2 !! 1%nat = Some 12%nat /\
  ~ old_frame_released r0.1.2 r.1.2 r.2.
Proof.
  cbv zeta. repeat (split; [vm_compute; reflexivity |]).
  intros H. specialize (H 0%nat eq_refl).
  assert (Hne : mCurrentFrame
                  (commonStartDevice 4 2 V4L2_PIX_FMT_NV21
                     (Mem.NewGives (fun _ => "000"%byte))
                     (commonStartDevice 2 2 V4L2_PIX_FMT_NV21
                        (Mem.NewGives (fun _ => "000"%byte))
                        (V4L2Camera_ctor 0 0 0 0 0) ∅).1.2
                     (commonStartDevice 2 2 V4L2_PIX_FMT_NV21
                        (Mem.NewGives (fun _ => "000"%byte))
                        (V4L2Camera_ctor 0 0 0 0 0) ∅).2).1.2
                <> Some 0%nat) by (vm_compute; discriminate).
  specialize (H Hne). vm_compute in H. discriminate.
Qed.

Lemma commonStopDevice_frees d h :
  mCurrentFrame (commonStopDevice d h).1 = NULL /\
  (forall a, mCurrentFrame d = Some a -> (commonStopDevice d h).2 !! a = None) /\
  (forall a, mCurrentFrame d <> Some a ->
             (commonStopDevice d h).2 !! a = h !! a).
Proof.
  unfold commonStopDevice. cbn.
  destruct (mCurrentFrame d) as [p |] eqn:Hp; cbn.
  - split; [reflexivity |]. split.
    + intros a [= ->]. apply lookup_delete_eq.
    + intros a Hne. apply lookup_delete_ne. congruence.
  - split; [exact Hp |]. split; [discriminate | reflexivity].
Qed.

Lemma commonStartDevice_allocates w hgt fmt o d h d' h' :
  commonStartDevice w hgt fmt o d h = (NO_ERROR, d', h') ->
  exists b, mCurrentFrame d' = Some b /\ h !! b = None /\
            is_Some (h' !! b) /\ forall a, a <> b -> h' !! a = h !! a.
Proof.
  intros Hstart.
  destruct (commonStartDevice_success _ _ _ _ _ _ _ _ Hstart)
    as (b & junk & _ & _ & _ & Hnone & -> & ->).
  exists b. split; [reflexivity |]. split; [exact Hnone |]. split.
  - rewrite lookup_insert_eq. eauto.
  - intros a Hne. apply lookup_insert_ne. congruence.
Qed.

(** C7, amended.  [commonStartDevice] frees nothing: it takes a block that
    was not live and leaves every other block as it was.  It is
    [commonStopDevice] that frees the held frame buffer and nulls the
    pointer; so when a start follows a stop, the block the device held
    before is gone from the store by the time the new one is allocated,
    and the new block is the only one the pair of calls adds. *)
Theorem frame_buffer_freed_by_stop_before_start
    (width height pix_fmt : Z) (o : Mem.new_outcome)
    (d d2 : V4L2Camera) (h h2 : gmap nat (list byte)) :
  commonStartDevice width height pix_fmt o
    (commonStopDevice d h).1 (commonStopDevice d h).2 = (NO_ERROR, d2, h2) ->
  mCurrentFrame (commonStopDevice d h).1 = NULL /\
  (forall a, mCurrentFrame d = Some a -> (commonStopDevice d h).2 !! a = None) /\
  exists b, mCurrentFrame d2 = Some b /\
            (commonStopDevice d h).2 !! b = None /\
            is_Some (h2 !! b) /\
            (forall a, a <> b -> h2 !! a = (commonStopDevice d h).2 !! a) /\
            old_frame_released d d2 h2.
Proof.
  intros Hstart.
  destruct (commonStopDevice_frees d h) as (Hnull & Hfreed & _).
  split; [exact Hnull |]. split; [exact Hfreed |].
  destruct (commonStartDevice_allocates _ _ _ _ _ _ _ _ Hstart)
    as (b & Hb & Hnone & Hlive & Hothers).
  exists b. repeat (split; [assumption |]).
  intros a Ha Hne. rewrite Hothers by congruence. apply Hfreed, Ha.
Qed.

Lemma frame_buffer_freed_by_stop_before_start_witness :
  let o := Mem.NewGives (fun _ => "000"%byte) in
  let r0 := commonStartDevice 2 2 V4L2_PIX_FMT_NV21 o
              (V4L2Camera_ctor 0 0 0 0 0) ∅ in
  let s := commonStopDevice r0.1.2 r0.2 in
  let r := commonStartDevice 4 2 V4L2_PIX_FMT_NV12 o s.1 s.2 in
  r = (NO_ERROR, r.1.2, r.2) /\
  mCurrentFrame r0.1.2 = Some 0%nat /\
  mCurrentFrame s.1 = NULL /\ s.2 !! 0%nat = None /\
  size r.2 = 1%nat /\
  old_frame_released r0.1.2 r.1.2 r.2.
Proof.
  cbv zeta.
  assert (Hr :
    commonStartDevice 4 2 V4L2_PIX_FMT_NV12
      (Mem.NewGives (fun _ => "000"%byte))
      (commonStopDevice
         (commonStartDevice 2 2 V4L2_PIX_FMT_NV21
            (Mem.NewGives (fun _ => "000"%byte))
            (V4L2Camera_ctor 0 0 0 0 0) ∅).1.2
         (commonStartDevice 2 2 V4L2_PIX_FMT_NV21
            (Mem.NewGives (fun _ => "000"%byte))
            (V4L2Camera_ctor 0 0 0 0 0) ∅).2).1
      (commonStopDevice
         (commonStartDevice 2 2 V4L2_PIX_FMT_NV21
            (Mem.NewGives (fun _ => "000"%byte))
            (V4L2Camera_ctor 0 0 0 0 0) ∅).1.2
         (commonStartDevice 2 2 V4L2_PIX_FMT_NV21
            (Mem.NewGives (fun _ => "000"%byte))
            (V4L2Camera_ctor 0 0 0 0 0) ∅).2).2
    = (NO_ERROR, _, _)) by (vm_compute; reflexivity).
  destruct (frame_buffer_freed_by_stop_before_start _ _ _ _ _ _ _ _ Hr)
    as (_ & _ & b & _ & _ & _ & _ & Hrel).
  split; [vm_compute; reflexivity |].
  split; [vm_compute; reflexivity |].
  split; [vm_compute; reflexivity |].
  split; [vm_compute; reflexivity |].
  split; [vm_compute; reflexivity |].
  exact Hrel.
Defined.

(** ** stopDeliveringFrames *)

(** C3.  On a device that was initialized and never started, with no
    picture being taken, [stopDeliveringFrames] does not return: finding
    [mThreadRunning] clear, as the constructor left it, it waits on
    [mCondThreadRunning].  The test of [isStarted] that answers
    [NO_ERROR] for such a device, leaving it as it is and taking no
    action, stands behind that wait and is not reached. *)
Lemma stopDeliveringFrames_before_start_waits :
  let wt := mkWorkerThread (-1) (-1) in
  let d := (Initialize (Some wt) (V4L2Camera_ctor 0 0 0 0 0)).1.2 in
  let env := sample_env ∅ 0 in
  isStarted d = false /\
  mTakingPicture d = false /\
  mThreadRunning d = false /\
  stopDeliveringFrames 0 env d = Waits mCondThreadRunning /\
  stopDeliveringFrames 0 env d <> Returns NO_ERROR d [] /\
  stopDeliveringFrames_stop 0 env d = Returns NO_ERROR d [].
Proof.
  cbv zeta. do 4 (split; [reflexivity |]).
  split; [vm_compute; discriminate | reflexivity].
Qed.

(** The calls on a device that is not Started, by the two flags: with no
    picture being taken and [mThreadRunning] set, [stopDeliveringFrames]
    returns [NO_ERROR] at once, with the device as it was and no action;
    otherwise it waits, on [mCondTakePhotoEnd] while a picture is being
    taken, else on [mCondThreadRunning]; a caller woken from the latter
    with the device still not Started returns [NO_ERROR]. *)
Lemma stopDeliveringFrames_not_started
    (THREAD_STOP : ControlMessage) (env : ThreadEnv) (d : V4L2Camera) :
  isStarted d = false ->
  (mTakingPicture d = false -> mThreadRunning d = true ->
   stopDeliveringFrames THREAD_STOP env d = Returns NO_ERROR d []) /\
  (mTakingPicture d = true ->
   stopDeliveringFrames THREAD_STOP env d = Waits mCondTakePhotoEnd) /\
  (mTakingPicture d = false -> mThreadRunning d = false ->
   stopDeliveringFrames THREAD_STOP env d = Waits mCondThreadRunning) /\
  stopDeliveringFrames_resume THREAD_STOP env mCondThreadRunning d
    = Returns NO_ERROR d [].
Proof.
  intros Hns.
  unfold stopDeliveringFrames, stopDeliveringFrames_resume,
    stopDeliveringFrames_running, stopDeliveringFrames_stop.
  rewrite Hns. cbn.
  split; [intros -> ->; reflexivity |].
  split; [intros ->; reflexivity |].
  split; [intros -> ->; reflexivity | reflexivity].
Qed.

Lemma stopDeliveringFrames_not_started_witness :
  let wt := mkWorkerThread 4 3 in
  let d := set_mThreadRunning true
             (Initialize (Some wt) (V4L2Camera_ctor 0 0 0 0 0)).1.2 in
  let env := sample_env ∅ 0 in
  isStarted d = false /\
  stopDeliveringFrames 0 env d = Returns NO_ERROR d [].
Proof.
  cbv zeta. split; [reflexivity |].
  apply (stopDeliveringFrames_not_started 0 (sample_env ∅ 0)
           (set_mThreadRunning true
              (Initialize (Some (mkWorkerThread 4 3))
                 (V4L2Camera_ctor 0 0 0 0 0)).1.2));
    reflexivity.
Defined.

(** ** WorkerThread::Select *)

(** C9. When [select] reports readiness and leaves both the control
    descriptor and the source descriptor set, [Select] turns to the
    control descriptor: after the [select] it performs exactly one [read],
    of one message from [mControlFD]; it answers [EXIT_THREAD] if a whole
    message arrived and it is [THREAD_STOP], [ERROR] otherwise, and
    [READY] in no case. *)
Theorem Select_control_first
    (THREAD_STOP : ControlMessage) (env : ThreadEnv) (wt : WorkerThread)
    (fd timeout : Z) :
  let sel := sys_select env (Select_fd_num wt fd) (Select_fds wt fd)
               (Select_tvp timeout) in
  let rd := sys_read env (mControlFD wt) sizeof_ControlMessage in
  0 < sel.1 -> mControlFD wt ∈ sel.2 -> fd ∈ sel.2 ->
  (Select THREAD_STOP env wt fd timeout).2
    = [EvSelect (Select_fd_num wt fd) (Select_fds wt fd) (Select_tvp timeout);
       EvRead (mControlFD wt) sizeof_ControlMessage] /\
  (rd.1 = sizeof_ControlMessage -> rd.2 = THREAD_STOP ->
   (Select THREAD_STOP env wt fd timeout).1 = EXIT_THREAD) /\
  (rd.2 <> THREAD_STOP ->
   (Select THREAD_STOP env wt fd timeout).1 = ERROR) /\
  (rd.1 <> sizeof_ControlMessage ->
   (Select THREAD_STOP env wt fd timeout).1 = ERROR) /\
  (Select THREAD_STOP env wt fd timeout).1 <> READY.
Proof.
  cbv zeta. intros Hres Hctl _. unfold Select.
  destruct (sys_select env (Select_fd_num wt fd) (Select_fds wt fd)
              (Select_tvp timeout)) as [res fds]. cbn in Hres, Hctl.
  destruct (res <? 0) eqn:Hneg; [apply Z.ltb_lt in Hneg; lia |].
  destruct (res =? 0) eqn:Hzero; [apply Z.eqb_eq in Hzero; lia |].
  unfold FD_ISSET. rewrite bool_decide_eq_true_2 by exact Hctl.
  destruct (sys_read env (mControlFD wt) sizeof_ControlMessage)
    as [n msg]. cbn.
  destruct (n =? sizeof_ControlMessage) eqn:Hn; cbn.
  - apply Z.eqb_eq in Hn.
    destruct (msg =? THREAD_STOP) eqn:Hm; cbn.
    + apply Z.eqb_eq in Hm.
      repeat split; try reflexivity; try discriminate; congruence.
    + apply Z.eqb_neq in Hm.
      repeat split; try reflexivity; try discriminate; congruence.
  - apply Z.eqb_neq in Hn.
    repeat split; try reflexivity; try discriminate; congruence.
Qed.

Lemma Select_control_first_witness :
  let wt := mkWorkerThread 4 3 in
  let env := sample_env {[3; 9]} 0 in
  let sel := sys_select env (Select_fd_num wt 9) (Select_fds wt 9)
               (Select_tvp 0) in
  0 < sel.1 /\ 3 ∈ sel.2 /\ 9 ∈ sel.2 /\
  Select 0 env wt 9 0
    = (EXIT_THREAD, [EvSelect 10 {[9; 3]} None; EvRead 3 4]).
Proof.
  cbv zeta.
  assert (H1 : 0 < (sys_select (sample_env {[3; 9]} 0)
                      (Select_fd_num (mkWorkerThread 4 3) 9)
                      (Select_fds (mkWorkerThread 4 3) 9) (Select_tvp 0)).1)
    by (vm_compute; reflexivity).
  assert (H2 : 3 ∈ (sys_select (sample_env {[3; 9]} 0)
                      (Select_fd_num (mkWorkerThread 4 3) 9)
                      (Select_fds (mkWorkerThread 4 3) 9) (Select_tvp 0)).2)
    by (unfold sample_env, Select_fds, FD_SET, FD_ZERO; cbn; set_solver).
  assert (H3 : 9 ∈ (sys_select (sample_env {[3; 9]} 0)
                      (Select_fd_num (mkWorkerThread 4 3) 9)
                      (Select_fds (mkWorkerThread 4 3) 9) (Select_tvp 0)).2)
    by (unfold sample_env, Select_fds, FD_SET, FD_ZERO; cbn; set_solver).
  split; [exact H1 |]. split; [exact H2 |]. split; [exact H3 |].
  destruct (Select_control_first 0 (sample_env {[3; 9]} 0)
              (mkWorkerThread 4 3) 9 0 H1 H2 H3)
    as (Htr & Hexit & _).
  specialize (Hexit eq_refl eq_refl).
  destruct (Select 0 (sample_env {[3; 9]} 0) (mkWorkerThread 4 3) 9 0)
    as [r tr]. cbn in Htr, Hexit. subst r tr.
  reflexivity.
Defined.

(** ** getCurrentPreviewFrame *)

(** *** Loads, stores and copies inside live blocks *)

Lemma load_lookup h p off blk b :
  h !! p = Some blk -> 0 <= off -> blk !! Z.to_nat off = Some b ->
  Mem.load h p off = Some b.
Proof.
  intros Hp Hoff Hb. unfold Mem.load.
  destruct (off <? 0) eqn:Hneg; [apply Z.ltb_lt in Hneg; lia |].
  rewrite Hp. cbn. exact Hb.
Qed.

Lemma store_insert h p off blk v :
  h !! p = Some blk -> 0 <= off -> (Z.to_nat off < length blk)%nat ->
  Mem.store h p off v = Some (<[p := <[Z.to_nat off := v]> blk]> h).
Proof.
  intros Hp Hoff Hlen. unfold Mem.store.
  destruct (off <? 0) eqn:Hneg; [apply Z.ltb_lt in Hneg; lia |].
  rewrite Hp. cbn.
  destruct (off <? Z.of_nat (length blk)) eqn:Hin; [reflexivity |].
  apply Z.ltb_ge in Hin. lia.
Qed.

Lemma memcpy_copy h dst src n s d :
  dst <> src -> h !! src = Some s -> h !! dst = Some d ->
  0 <= n -> (Z.to_nat n <= length s)%nat -> (Z.to_nat n <= length d)%nat ->
  Mem.memcpy h dst src n
  = Some (<[dst := take (Z.to_nat n) s ++ drop (Z.to_nat n) d]> h).
Proof.
  intros Hne Hs Hd Hn Hls Hld. unfold Mem.memcpy.
  destruct (n <? 0) eqn:Hneg; [apply Z.ltb_lt in Hneg; lia |].
  rewrite Hs, Hd. cbn.
  assert (H1 : (n <=? Z.of_nat (length s)) = true) by (apply Z.leb_le; lia).
  assert (H2 : (n <=? Z.of_nat (length d)) = true) by (apply Z.leb_le; lia).
  rewrite H1, H2, bool_decide_eq_false_2 by exact Hne. reflexivity.
Qed.

Lemma pair_lookup (pre : list byte) x y rest :
  (pre ++ x :: y :: rest) !! length pre = Some x /\
  (pre ++ x :: y :: rest) !! S (length pre) = Some y.
Proof. induction pre as [| p pre IH]; cbn; [split; reflexivity | exact IH]. Qed.

Lemma pair_insert (pre : list byte) u v rest a b :
  <[S (length pre) := b]> (<[length pre := a]> (pre ++ u :: v :: rest))
  = pre ++ a :: b :: rest.
Proof.
  induction pre as [| p pre IH]; cbn; [reflexivity |]. f_equal. exact IH.
Qed.

(** *** The chroma loop *)

Lemma NV12ToNV21_body_step nv12 nv21 uv i h spre x y srest pre u v rest :
  nv12 <> nv21 -> 0 <= uv -> 0 <= i ->
  h !! nv12 = Some (spre ++ x :: y :: srest) ->
  h !! nv21 = Some (pre ++ u :: v :: rest) ->
  length spre = Z.to_nat (uv + i) -> length pre = Z.to_nat (uv + i) ->
  NV12ToNV21_body nv12 nv21 uv i h
  = Some (<[nv21 := pre ++ y :: x :: rest]> h).
Proof.
  intros Hne Huv Hi Hs Hd Hls Hlp. unfold NV12ToNV21_body.
  destruct (pair_lookup spre x y srest) as [Hx Hy].
  assert (E1 : Z.to_nat (uv + (i + 1)) = S (length spre)) by lia.
  assert (E0 : Z.to_nat (uv + i) = length pre) by lia.
  rewrite (load_lookup h nv12 (uv + (i + 1)) _ y Hs) by (try lia; rewrite E1; exact Hy).
  cbn.
  rewrite (store_insert h nv21 (uv + i) _ y Hd)
    by (try lia; rewrite E0, length_app; cbn; lia).
  cbn. rewrite E0.
  rewrite (load_lookup _ nv12 (uv + i) (spre ++ x :: y :: srest) x).
  - cbn.
    rewrite (store_insert _ nv21 (uv + (i + 1))
               (<[length pre := y]> (pre ++ u :: v :: rest)) x).
    + rewrite insert_insert_eq.
      replace (Z.to_nat (uv + (i + 1))) with (S (length pre)) by lia.
      rewrite pair_insert. reflexivity.
    + apply lookup_insert_eq.
    + lia.
    + rewrite length_insert, length_app. cbn. lia.
  - rewrite lookup_insert_ne by congruence. exact Hs.
  - lia.
  - rewrite Hls in Hx. exact Hx.
Qed.

(** The index list is the loop's: the even [i] with [0 <= i < lim]. *)
Lemma pair_indices_spec lim i :
  i ∈ pair_indices lim <-> 0 <= i < lim /\ Z.even i = true.
Proof.
  unfold pair_indices. rewrite list_elem_of_fmap. split.
  - intros (k & -> & Hk). apply elem_of_seq in Hk.
    assert (Hlim : 0 < (lim + 1) / 2) by lia.
    assert (Z.of_nat k < (lim + 1) / 2) by lia.
    pose proof (Z.div_mod (lim + 1) 2 ltac:(lia)).
    pose proof (Z.mod_pos_bound (lim + 1) 2 ltac:(lia)).
    split; [lia |]. rewrite Z.even_mul. reflexivity.
  - intros [Hi He]. apply Z.even_spec in He. destruct He as [j ->].
    exists (Z.to_nat j). split; [lia |]. apply elem_of_seq.
    pose proof (Z.div_mod (lim + 1) 2 ltac:(lia)).
    pose proof (Z.mod_pos_bound (lim + 1) 2 ltac:(lia)).
    lia.
Qed.

Lemma chroma_loop nv12 nv21 uv :
  nv12 <> nv21 -> 0 <= uv ->
  forall (len a : nat) spre smid spost pre mid post h,
    h !! nv12 = Some (spre ++ smid ++ spost) ->
    h !! nv21 = Some (pre ++ mid ++ post) ->
    length spre = (Z.to_nat uv + 2 * a)%nat ->
    length pre = (Z.to_nat uv + 2 * a)%nat ->
    length smid = (2 * len)%nat -> length mid = (2 * len)%nat ->
    for_each (NV12ToNV21_body nv12 nv21 uv)
      (map (fun k => 2 * Z.of_nat k) (seq a len)) h
    = Some (<[nv21 := pre ++ swap_pairs smid ++ post]> h).
Proof.
  intros Hne Huv. induction len as [| len IH];
    intros a spre smid spost pre mid post h Hs Hd Hls Hlp Hlsm Hlm.
  - destruct smid; [| discriminate]. destruct mid; [| discriminate].
    cbn. rewrite insert_id by exact Hd. reflexivity.
  - destruct smid as [| x [| y smid]]; cbn in Hlsm; try lia.
    destruct mid as [| u [| v mid]]; cbn in Hlm; try lia.
    cbn [seq map for_each].
    rewrite (NV12ToNV21_body_step nv12 nv21 uv (2 * Z.of_nat a) h
               spre x y (smid ++ spost) pre u v (mid ++ post))
      by (try assumption; lia).
    cbn [mbind option_bind].
    rewrite (IH (S a) (spre ++ [x; y]) smid spost (pre ++ [y; x]) mid post).
    + rewrite insert_insert_eq. cbn [swap_pairs].
      rewrite <- (app_assoc pre [y; x]). reflexivity.
    + rewrite lookup_insert_ne by congruence.
      rewrite <- (app_assoc spre [x; y]). exact Hs.
    + rewrite lookup_insert_eq, <- (app_assoc pre [y; x]). reflexivity.
    + rewrite length_app. cbn. lia.
    + rewrite length_app. cbn. lia.
    + lia.
    + lia.
Qed.

Lemma pair_indices_even lim :
  0 <= lim -> Z.even lim = true ->
  pair_indices lim
  = map (fun k => 2 * Z.of_nat k) (seq 0 (Z.to_nat lim / 2)) /\
  Z.to_nat lim = (2 * (Z.to_nat lim / 2))%nat.
Proof.
  intros H0 He. apply Z.even_spec in He. destruct He as [k ->].
  assert (Hk : 0 <= k) by lia.
  assert (Hhalf : (2 * k + 1) / 2 = k).
  { symmetry. apply (Z.div_unique (2 * k + 1) 2 k 1); lia. }
  assert (Hnat : (Z.to_nat (2 * k) / 2)%nat = Z.to_nat k).
  { rewrite Z2Nat.inj_mul by lia.
    change (Z.to_nat 2) with 2%nat.
    rewrite Nat.mul_comm. apply Nat.div_mul. lia. }
  unfold pair_indices. rewrite Hhalf, Hnat. split; [reflexivity | lia].
Qed.

(** What [NV12ToNV21] writes, for a frame whose chroma plane is made of
    whole pairs and for source and destination blocks that hold the
    frame. *)
Lemma NV12ToNV21_spec h nv12 nv21 w hgt s d :
  nv12 <> nv21 -> h !! nv12 = Some s -> h !! nv21 = Some d ->
  0 <= w * hgt -> w * hgt <= INT_MAX -> Z.even (w * hgt / 2) = true ->
  let n := Z.to_nat (w * hgt) in
  (n + n / 2 <= length s)%nat -> (n + n / 2 <= length d)%nat ->
  NV12ToNV21 h nv12 nv21 w hgt
  = Some (<[nv21 := preview_of_nv12 n s ++ drop (n + n / 2) d]> h).
Proof.
  intros Hne Hs Hd H0 Hmax Heven n Hls Hld.
  unfold NV12ToNV21.
  rewrite (half_pixels w hgt H0 Hmax).
  assert (Hn : imul w hgt = w * hgt).
  { apply imul_exact. revert H0 Hmax.
    unfold in_int, INT_MIN, INT_MAX. lia. }
  rewrite Hn.
  rewrite (memcpy_copy h nv21 nv12 (w * hgt) s d)
    by (try assumption; try congruence; fold n; lia).
  fold n. cbn [mbind option_bind].
  assert (Hlim : 0 <= w * hgt / 2) by (apply Z.div_pos; lia).
  destruct (pair_indices_even (w * hgt / 2) Hlim Heven) as [-> Hlen].
  rewrite (half_to_nat (w * hgt) H0) in Hlen |- *. fold n in Hlen |- *.
  rewrite (chroma_loop nv12 nv21 (w * hgt) Hne H0 (n / 2 / 2) 0
             (take n s) (take (n / 2) (drop n s)) (drop (n / 2) (drop n s))
             (take n s) (take (n / 2) (drop n d)) (drop (n / 2) (drop n d))).
  - rewrite insert_insert_eq. unfold preview_of_nv12.
    rewrite drop_drop, <- app_assoc. reflexivity.
  - rewrite lookup_insert_ne by congruence.
    rewrite !take_drop. exact Hs.
  - rewrite lookup_insert_eq, take_drop. reflexivity.
  - rewrite length_take. fold n. lia.
  - rewrite length_take. fold n. lia.
  - rewrite length_take, length_drop. lia.
  - rewrite length_take, length_drop. lia.
Qed.

Lemma swap_pairs_length_aux l :
  length (swap_pairs l) = length l /\
  forall a, length (swap_pairs (a :: l)) = S (length l).
Proof.
  induction l as [| b r [IH1 IH2]]; [split; reflexivity |].
  split; [apply IH2 |]. intros a. cbn. rewrite IH1. reflexivity.
Qed.

Lemma swap_pairs_length l : length (swap_pairs l) = length l.
Proof. apply swap_pairs_length_aux. Qed.

Lemma swap_pairs_involutive_aux l :
  swap_pairs (swap_pairs l) = l /\
  forall a, swap_pairs (swap_pairs (a :: l)) = a :: l.
Proof.
  induction l as [| b r [IH1 IH2]]; [split; reflexivity |].
  split; [apply IH2 |]. intros a. cbn. rewrite IH1. reflexivity.
Qed.

Lemma swap_pairs_involutive l : swap_pairs (swap_pairs l) = l.
Proof. apply swap_pairs_involutive_aux. Qed.

(** Position by position: inside whole pairs, byte [2k] of the result is
    byte [2k+1] of the argument and the other way round. *)
Lemma swap_pairs_lookup l k :
  (2 * k + 1 < length l)%nat ->
  swap_pairs l !! (2 * k)%nat = l !! (2 * k + 1)%nat /\
  swap_pairs l !! (2 * k + 1)%nat = l !! (2 * k)%nat.
Proof.
  revert l. induction k as [| k IH]; intros l Hlen.
  - destruct l as [| a [| b r]]; cbn in Hlen; try lia. split; reflexivity.
  - destruct l as [| a [| b r]]; cbn in Hlen; try lia.
    replace (2 * S k)%nat with (S (S (2 * k))) by lia.
    cbn. apply IH. lia.
Qed.

(** *** The two read-outs as functions on byte lists *)

Lemma preview_of_nv21_length n s :
  (n + n / 2 <= length s)%nat ->
  length (preview_of_nv21 n s) = (n + n / 2)%nat.
Proof. intros H. unfold preview_of_nv21. rewrite length_take. lia. Qed.

Lemma preview_of_nv12_length n s :
  (n + n / 2 <= length s)%nat ->
  length (preview_of_nv12 n s) = (n + n / 2)%nat.
Proof.
  intros H. unfold preview_of_nv12.
  rewrite length_app, swap_pairs_length, !length_take, length_drop. lia.
Qed.

Lemma preview_of_nv12_luma n s :
  (n + n / 2 <= length s)%nat -> take n (preview_of_nv12 n s) = take n s.
Proof.
  intros H. unfold preview_of_nv12.
  apply take_app_length'. rewrite length_take. lia.
Qed.

Lemma preview_of_nv12_chroma n s k :
  (n + n / 2 <= length s)%nat -> (2 * k + 1 < n / 2)%nat ->
  preview_of_nv12 n s !! (n + 2 * k)%nat = s !! (n + (2 * k + 1))%nat /\
  preview_of_nv12 n s !! (n + (2 * k + 1))%nat = s !! (n + 2 * k)%nat.
Proof.
  intros Hlen Hk. unfold preview_of_nv12.
  assert (Hn : length (take n s) = n) by (rewrite length_take; lia).
  rewrite !lookup_app_r by (rewrite Hn; lia). rewrite Hn.
  replace (n + 2 * k - n)%nat with (2 * k)%nat by lia.
  replace (n + (2 * k + 1) - n)%nat with (2 * k + 1)%nat by lia.
  destruct (swap_pairs_lookup (take (n / 2) (drop n s)) k) as [H0 H1].
  { rewrite length_take, length_drop. lia. }
  rewrite H0, H1.
  rewrite !lookup_take_lt by lia. rewrite !lookup_drop. split; reflexivity.
Qed.

Lemma preview_of_nv12_twice n s rest :
  (n + n / 2 <= length s)%nat ->
  preview_of_nv12 n (preview_of_nv12 n s ++ rest) = take (n + n / 2) s.
Proof.
  intros Hlen.
  assert (Hn : length (take n s) = n) by (rewrite length_take; lia).
  assert (Hc : length (swap_pairs (take (n / 2) (drop n s))) = (n / 2)%nat).
  { rewrite swap_pairs_length, length_take, length_drop. lia. }
  unfold preview_of_nv12 at 1.
  assert (E : preview_of_nv12 n s ++ rest
              = take n s ++ swap_pairs (take (n / 2) (drop n s)) ++ rest).
  { unfold preview_of_nv12. rewrite <- app_assoc. reflexivity. }
  rewrite E.
  rewrite (take_app_length' (take n s)) by (symmetry; exact Hn).
  rewrite (drop_app_length' (take n s)) by (symmetry; exact Hn).
  rewrite (take_app_length' (swap_pairs _)) by (symmetry; exact Hc).
  rewrite swap_pairs_involutive. apply take_take_drop.
Qed.

(** *** getCurrentPreviewFrame on the two semiplanar formats *)

Lemma frame_bytes w hgt :
  0 <= w * hgt -> w * hgt * 3 <= INT_MAX ->
  let n := Z.to_nat (w * hgt) in
  Z.to_nat (idiv (imul (imul w hgt) 3) 2) = (n + n / 2)%nat /\
  Z.of_nat (n + n / 2) = w * hgt * 3 / 2.
Proof.
  intros H0 Hmax n.
  rewrite (frame_size_3_2 w hgt H0 Hmax).
  assert (Hhalf : (n / 2)%nat = Z.to_nat (w * hgt / 2))
    by (symmetry; apply half_to_nat; exact H0).
  assert (Hpos : 0 <= w * hgt / 2) by (apply Z.div_pos; lia).
  split.
  - rewrite Z2Nat.inj_add by lia. fold n. lia.
  - rewrite Nat2Z.inj_add, Hhalf. unfold n. rewrite !Z2Nat.id by lia.
    pose proof (Z.div_mod (w * hgt * 3) 2 ltac:(lia)).
    pose proof (Z.mod_pos_bound (w * hgt * 3) 2 ltac:(lia)).
    pose proof (Z.div_mod (w * hgt) 2 ltac:(lia)).
    pose proof (Z.mod_pos_bound (w * hgt) 2 ltac:(lia)). lia.
Qed.

Section ReadOut.

(** Whatever the RGB converters do: the switch is off. *)
Variables YV12ToRGB32 YU12ToRGB32 NV21ToRGB32 NV12ToRGB32 : converter.

(** A started device [d] whose frame block [frame] holds [s], and a
    destination block [buf] holding [dst]; both blocks have room for a
    frame of the cached dimensions, whose byte count fits an [int]. *)
Variables (frame buf : nat) (d : V4L2Camera) (h : gmap nat (list byte)).
Variables s dst : list byte.

Hypothesis Hstarted : isStarted d = true.
Hypothesis Hframe : mCurrentFrame d = Some frame.
Hypothesis Hdistinct : frame <> buf.
Hypothesis Hs : h !! frame = Some s.
Hypothesis Hdst : h !! buf = Some dst.
Hypothesis Hpixels : 0 <= mFrameWidth d * mFrameHeight d.
Hypothesis Hint : mFrameWidth d * mFrameHeight d * 3 <= INT_MAX.
Hypothesis Hs_len :
  let n := Z.to_nat (mFrameWidth d * mFrameHeight d) in
  (n + n / 2 <= length s)%nat.
Hypothesis Hdst_len :
  let n := Z.to_nat (mFrameWidth d * mFrameHeight d) in
  (n + n / 2 <= length dst)%nat.

Lemma getCurrentPreviewFrame_NV21 :
  let n := Z.to_nat (mFrameWidth d * mFrameHeight d) in
  mPixelFormat d = V4L2_PIX_FMT_NV21 ->
  getCurrentPreviewFrame false YV12ToRGB32 YU12ToRGB32 NV21ToRGB32
    NV12ToRGB32 (Some buf) d h
  = Some (OK, <[buf := preview_of_nv21 n s ++ drop (n + n / 2) dst]> h).
Proof.
  intros n Hfmt. cbv zeta in Hs_len, Hdst_len.
  unfold getCurrentPreviewFrame. rewrite Hstarted, Hframe, Hfmt. cbn.
  destruct (frame_bytes _ _ Hpixels Hint) as [Hsz _].
  assert (Hnn : 0 <= idiv (imul (imul (mFrameWidth d) (mFrameHeight d)) 3) 2).
  { rewrite frame_size_3_2 by assumption.
    assert (0 <= mFrameWidth d * mFrameHeight d / 2)
      by (apply Z.div_pos; lia).
    lia. }
  rewrite (memcpy_copy h buf frame _ s dst)
    by (try assumption; try congruence; rewrite Hsz; assumption).
  rewrite Hsz. reflexivity.
Qed.

Lemma getCurrentPreviewFrame_NV12 :
  let n := Z.to_nat (mFrameWidth d * mFrameHeight d) in
  mPixelFormat d = V4L2_PIX_FMT_NV12 ->
  Z.even (mFrameWidth d * mFrameHeight d / 2) = true ->
  getCurrentPreviewFrame false YV12ToRGB32 YU12ToRGB32 NV21ToRGB32
    NV12ToRGB32 (Some buf) d h
  = Some (OK, <[buf := preview_of_nv12 n s ++ drop (n + n / 2) dst]> h).
Proof.
  intros n Hfmt Heven. cbv zeta in Hs_len, Hdst_len.
  unfold getCurrentPreviewFrame. rewrite Hstarted, Hframe, Hfmt. cbn.
  rewrite (NV12ToNV21_spec h frame buf _ _ s dst)
    by (try assumption; revert Hint; unfold INT_MAX; lia).
  reflexivity.
Qed.

End ReadOut.

(** The sample scene of a 4x2 frame, whatever the supported format. *)
Lemma sample_scene_4x2 fmt :
  supported_format fmt = true ->
  let sc := sample_scene 4 2 fmt in
  isStarted sc.1.1 = true /\ mCurrentFrame sc.1.1 = Some 0%nat /\
  sc.1.2 !! 0%nat = Some ["000"; "001"; "002"; "003"; "004"; "005"; "006";
                          "007"; "008"; "009"; "010"; "011"]%byte /\
  sc.1.2 !! 1%nat = Some (replicate 12 "000"%byte) /\
  mFrameWidth sc.1.1 = 4 /\ mFrameHeight sc.1.1 = 2 /\
  mPixelFormat sc.1.1 = fmt.
Proof.
  intros Hfmt. cbv zeta. unfold sample_scene, commonStartDevice.
  rewrite Hfmt. repeat split; vm_compute; reflexivity.
Qed.

(** Discharges the side conditions of the read-out theorems on a scene
    whose cached width and height are known. *)
Ltac scene_dims Hw Hh :=
  rewrite ?Hw, ?Hh; first [reflexivity | unfold INT_MAX; lia | vm_compute; lia].

(** C1, as stated, fails: a started device holding a 2x2 frame in the
    supported planar format YUV420 (bytes 0..5) is read out into a six-byte
    destination of zeros.  The call answers [OK] and the store comes back
    as it went in: the destination still holds its zeros, no byte of the
    frame has reached it. *)
Lemma getCurrentPreviewFrame_planar_not_filled :
  let sc := sample_scene 2 2 V4L2_PIX_FMT_YUV420 in
  let d := sc.1.1 in
  let h := sc.1.2 in
  let buf := sc.2 in
  supported_format (mPixelFormat d) = true /\
  isStarted d = true /\ mCurrentFrame d = Some 0%nat /\ buf = 1%nat /\
  h !! 0%nat = Some ["000"; "001"; "002"; "003"; "004"; "005"]%byte /\
  h !! buf = Some ["000"; "000"; "000"; "000"; "000"; "000"]%byte /\
  getCurrentPreviewFrame false no_converter no_converter no_converter
    no_converter (Some buf) d h = Some (OK, h).
Proof. cbv zeta. repeat split; vm_compute; reflexivity. Qed.

(** C1, amended.  For a started device whose stored format is NV21, or
    NV12 with a chroma plane of whole byte pairs, whose frame block holds
    the frame and whose destination is a different block of at least
    [width * height * 3 / 2] bytes, [getCurrentPreviewFrame] answers [OK]
    and replaces exactly the first [width * height * 3 / 2] bytes of the
    destination by bytes of the frame: the frame itself for NV21, luma
    followed by pair-swapped chroma for NV12.  (The pixel count is
    non-negative and [width * height * 3] fits an [int].) *)
Theorem getCurrentPreviewFrame_fills_semiplanar
    (YV12ToRGB32 YU12ToRGB32 NV21ToRGB32 NV12ToRGB32 : converter)
    (frame buf : nat) (d : V4L2Camera) (h : gmap nat (list byte))
    (s dst : list byte) :
  let w := mFrameWidth d in
  let hgt := mFrameHeight d in
  let n := Z.to_nat (w * hgt) in
  isStarted d = true -> mCurrentFrame d = Some frame -> frame <> buf ->
  h !! frame = Some s -> h !! buf = Some dst ->
  0 <= w * hgt -> w * hgt * 3 <= INT_MAX ->
  (n + n / 2 <= length s)%nat -> (n + n / 2 <= length dst)%nat ->
  (mPixelFormat d = V4L2_PIX_FMT_NV21 \/
   (mPixelFormat d = V4L2_PIX_FMT_NV12 /\ Z.even (w * hgt / 2) = true)) ->
  exists out,
    getCurrentPreviewFrame false YV12ToRGB32 YU12ToRGB32 NV21ToRGB32
      NV12ToRGB32 (Some buf) d h
    = Some (OK, <[buf := out ++ drop (n + n / 2) dst]> h) /\
    Z.of_nat (length out) = w * hgt * 3 / 2 /\
    out = if mPixelFormat d =? V4L2_PIX_FMT_NV21
          then preview_of_nv21 n s else preview_of_nv12 n s.
Proof.
  intros w hgt n Hst Hf Hne Hs Hd H0 Hmax Hls Hld Hfmt.
  destruct (frame_bytes w hgt H0 Hmax) as [_ Hbytes]. fold n in Hbytes.
  destruct Hfmt as [H21 | [H12 Heven]].
  - exists (preview_of_nv21 n s). split; [| split].
    + apply (getCurrentPreviewFrame_NV21 _ _ _ _ frame); assumption.
    + rewrite preview_of_nv21_length by assumption. exact Hbytes.
    + rewrite H21. reflexivity.
  - exists (preview_of_nv12 n s). split; [| split].
    + apply (getCurrentPreviewFrame_NV12 _ _ _ _ frame); assumption.
    + rewrite preview_of_nv12_length by assumption. exact Hbytes.
    + rewrite H12. reflexivity.
Qed.

Lemma getCurrentPreviewFrame_fills_semiplanar_witness :
  let sc := sample_scene 4 2 V4L2_PIX_FMT_NV12 in
  let d := sc.1.1 in
  let h := sc.1.2 in
  let s := ["000"; "001"; "002"; "003"; "004"; "005"; "006"; "007";
            "008"; "009"; "010"; "011"]%byte in
  isStarted d = true /\ mCurrentFrame d = Some 0%nat /\
  h !! 0%nat = Some s /\ h !! 1%nat = Some (replicate 12 "000"%byte) /\
  mFrameWidth d = 4 /\ mFrameHeight d = 2 /\
  mPixelFormat d = V4L2_PIX_FMT_NV12 /\
  getCurrentPreviewFrame false no_converter no_converter no_converter
    no_converter (Some 1%nat) d h
  = Some (OK, <[1%nat := ["000"; "001"; "002"; "003"; "004"; "005"; "006";
                          "007"; "009"; "008"; "011"; "010"]%byte]> h).
Proof.
  cbv zeta.
  destruct (sample_scene_4x2 V4L2_PIX_FMT_NV12 eq_refl)
    as (Hst & Hf & Hs & Hd & Hw & Hh & Hfmt).
  repeat (split; [assumption |]).
  set (d := (sample_scene 4 2 V4L2_PIX_FMT_NV12).1.1) in *.
  assert (H0 : 0 <= mFrameWidth d * mFrameHeight d) by scene_dims Hw Hh.
  assert (Hmax : mFrameWidth d * mFrameHeight d * 3 <= INT_MAX)
    by scene_dims Hw Hh.
  assert (Hls : (Z.to_nat (mFrameWidth d * mFrameHeight d)
                 + Z.to_nat (mFrameWidth d * mFrameHeight d) / 2
                 <= 12)%nat) by scene_dims Hw Hh.
  assert (Heven : Z.even (mFrameWidth d * mFrameHeight d / 2) = true)
    by scene_dims Hw Hh.
  destruct (getCurrentPreviewFrame_fills_semiplanar
              no_converter no_converter no_converter no_converter
              0%nat 1%nat d _ _ _ Hst Hf ltac:(discriminate) Hs Hd H0 Hmax
              Hls Hls (or_intror (conj Hfmt Heven)))
    as (out & Hres & _ & Hout).
  rewrite Hres, Hout, Hfmt, Hw, Hh. reflexivity.
Defined.

(** C2, as stated, fails for a frame whose chroma plane has an odd number
    of bytes.  A 2x1 NV12 frame occupies three bytes (two luma, one
    chroma); the loop's only iteration, at [i = 0], reads [src_uv[1]] and
    writes [dst_uv[1]], the byte behind each three-byte block, so the
    read-out has no defined result.  Given a fourth byte of room on both
    sides, the chroma byte delivered is that stray fourth source byte and
    the frame's own chroma byte lands behind the frame. *)
Lemma NV12ToNV21_odd_chroma_overruns :
  let sc := sample_scene 2 1 V4L2_PIX_FMT_NV12 in
  let d := sc.1.1 in
  let h := sc.1.2 in
  let roomy : gmap nat (list byte) :=
    <[1%nat := ["000"; "000"; "000"; "000"]%byte]>
      (<[0%nat := ["000"; "001"; "002"; "009"]%byte]> ∅) in
  isStarted d = true /\ mCurrentFrame d = Some 0%nat /\
  mFrameWidth d = 2 /\ mFrameHeight d = 1 /\
  mPixelFormat d = V4L2_PIX_FMT_NV12 /\ mFrameBufferSize d = 3 /\
  h !! 0%nat = Some ["000"; "001"; "002"]%byte /\
  h !! 1%nat = Some ["000"; "000"; "000"]%byte /\
  NV12ToNV21 h 0 1 2 1 = None /\
  getCurrentPreviewFrame false no_converter no_converter no_converter
    no_converter (Some 1%nat) d h = None /\
  NV12ToNV21 roomy 0 1 2 1
  = Some (<[1%nat := ["000"; "001"; "009"; "002"]%byte]> roomy).
Proof. cbv zeta. repeat split; vm_compute; reflexivity. Qed.

Lemma NV12ToNV21_twice h nv12 nv21 back w hgt s d t :
  nv12 <> nv21 -> back <> nv21 ->
  h !! nv12 = Some s -> h !! nv21 = Some d -> h !! back = Some t ->
  0 <= w * hgt -> w * hgt <= INT_MAX -> Z.even (w * hgt / 2) = true ->
  let n := Z.to_nat (w * hgt) in
  (n + n / 2 <= length s)%nat -> (n + n / 2 <= length d)%nat ->
  (n + n / 2 <= length t)%nat ->
  exists h1 h2,
    NV12ToNV21 h nv12 nv21 w hgt = Some h1 /\
    NV12ToNV21 h1 nv21 back w hgt = Some h2 /\
    take (n + n / 2) <$> h2 !! back = Some (take (n + n / 2) s).
Proof.
  intros Hne Hback Hs Hd Ht H0 Hmax Heven n Hls Hld Hlt.
  eexists _, _. split; [| split].
  - apply (NV12ToNV21_spec h nv12 nv21 w hgt s d); assumption.
  - apply (NV12ToNV21_spec _ nv21 back w hgt
             (preview_of_nv12 n s ++ drop (n + n / 2) d) t);
      try assumption; try congruence.
    + apply lookup_insert_eq.
    + rewrite lookup_insert_ne by congruence. exact Ht.
    + rewrite length_app, preview_of_nv12_length by assumption.
      fold n. lia.
  - rewrite lookup_insert_eq. cbn [fmap option_fmap option_map]. f_equal.
    rewrite preview_of_nv12_twice by assumption.
    apply take_app_length'. rewrite length_take. lia.
Qed.

(** C2, amended.  For a started device whose frame block holds the frame
    and a destination in a different block of at least [w * h * 3 / 2]
    bytes (pixel count non-negative, [w * h * 3] within [int]):
    a stored NV21 frame is read out as a byte-identical copy of its
    [w * h * 3 / 2] bytes; a stored NV12 frame whose chroma plane consists
    of whole byte pairs ([w * h / 2] even) is read out with its [w * h]
    luma bytes unchanged and every even/odd pair of its chroma plane
    exchanged, and converting the result once more gives back the frame. *)
Theorem semiplanar_readout
    (YV12ToRGB32 YU12ToRGB32 NV21ToRGB32 NV12ToRGB32 : converter)
    (frame buf : nat) (d : V4L2Camera) (h : gmap nat (list byte))
    (s dst : list byte) :
  let w := mFrameWidth d in
  let hgt := mFrameHeight d in
  let n := Z.to_nat (w * hgt) in
  isStarted d = true -> mCurrentFrame d = Some frame -> frame <> buf ->
  h !! frame = Some s -> h !! buf = Some dst ->
  0 <= w * hgt -> w * hgt * 3 <= INT_MAX ->
  (n + n / 2 <= length s)%nat -> (n + n / 2 <= length dst)%nat ->
  (mPixelFormat d = V4L2_PIX_FMT_NV21 ->
   getCurrentPreviewFrame false YV12ToRGB32 YU12ToRGB32 NV21ToRGB32
     NV12ToRGB32 (Some buf) d h
   = Some (OK, <[buf := take (n + n / 2) s ++ drop (n + n / 2) dst]> h)) /\
  (mPixelFormat d = V4L2_PIX_FMT_NV12 -> Z.even (w * hgt / 2) = true ->
   exists out,
     getCurrentPreviewFrame false YV12ToRGB32 YU12ToRGB32 NV21ToRGB32
       NV12ToRGB32 (Some buf) d h
     = Some (OK, <[buf := out ++ drop (n + n / 2) dst]> h) /\
     length out = (n + n / 2)%nat /\
     take n out = take n s /\
     (forall k : nat, (2 * k + 1 < n / 2)%nat ->
        out !! (n + 2 * k)%nat = s !! (n + (2 * k + 1))%nat /\
        out !! (n + (2 * k + 1))%nat = s !! (n + 2 * k)%nat) /\
     (forall back t, back <> buf -> h !! back = Some t ->
        (n + n / 2 <= length t)%nat ->
        exists h1 h2,
          NV12ToNV21 h frame buf w hgt = Some h1 /\
          NV12ToNV21 h1 buf back w hgt = Some h2 /\
          take (n + n / 2) <$> h2 !! back = Some (take (n + n / 2) s))).
Proof.
  intros w hgt n Hst Hf Hne Hs Hd H0 Hmax Hls Hld.
  assert (Hmax' : w * hgt <= INT_MAX)
    by (revert Hmax; unfold INT_MAX; lia).
  split.
  - intros H21.
    apply (getCurrentPreviewFrame_NV21 _ _ _ _ frame); assumption.
  - intros H12 Heven. exists (preview_of_nv12 n s).
    split; [apply (getCurrentPreviewFrame_NV12 _ _ _ _ frame); assumption |].
    split; [apply preview_of_nv12_length; assumption |].
    split; [apply preview_of_nv12_luma; assumption |].
    split; [intros k Hk; apply preview_of_nv12_chroma; assumption |].
    intros back t Hback Ht Hlt.
    apply (NV12ToNV21_twice h frame buf back w hgt s dst t); assumption.
Qed.

Lemma semiplanar_readout_witness :
  let sc21 := sample_scene 4 2 V4L2_PIX_FMT_NV21 in
  let sc12 := sample_scene 4 2 V4L2_PIX_FMT_NV12 in
  let s := ["000"; "001"; "002"; "003"; "004"; "005"; "006"; "007";
            "008"; "009"; "010"; "011"]%byte in
  (isStarted sc21.1.1 = true /\
   mPixelFormat sc21.1.1 = V4L2_PIX_FMT_NV21 /\
   sc21.1.2 !! 0%nat = Some s /\
   getCurrentPreviewFrame false no_converter no_converter no_converter
     no_converter (Some 1%nat) sc21.1.1 sc21.1.2
   = Some (OK, <[1%nat := s]> sc21.1.2)) /\
  (isStarted sc12.1.1 = true /\
   mPixelFormat sc12.1.1 = V4L2_PIX_FMT_NV12 /\
   sc12.1.2 !! 0%nat = Some s /\
   exists out,
     getCurrentPreviewFrame false no_converter no_converter no_converter
       no_converter (Some 1%nat) sc12.1.1 sc12.1.2
     = Some (OK, <[1%nat := out ++ []]> sc12.1.2) /\
     length out = 12%nat /\ take 8 out = take 8 s /\
     out !! 8%nat = Some "009"%byte /\ out !! 9%nat = Some "008"%byte /\
     out !! 10%nat = Some "011"%byte /\ out !! 11%nat = Some "010"%byte).
Proof.
  cbv zeta. split.
  - destruct (sample_scene_4x2 V4L2_PIX_FMT_NV21 eq_refl)
      as (Hst & Hf & Hs & Hd & Hw & Hh & Hfmt).
    repeat (split; [assumption |]).
    set (d := (sample_scene 4 2 V4L2_PIX_FMT_NV21).1.1) in *.
    assert (H0 : 0 <= mFrameWidth d * mFrameHeight d) by scene_dims Hw Hh.
    assert (Hmax : mFrameWidth d * mFrameHeight d * 3 <= INT_MAX)
      by scene_dims Hw Hh.
    assert (Hls : (Z.to_nat (mFrameWidth d * mFrameHeight d)
                   + Z.to_nat (mFrameWidth d * mFrameHeight d) / 2
                   <= 12)%nat) by scene_dims Hw Hh.
    destruct (semiplanar_readout
                no_converter no_converter no_converter no_converter
                0%nat 1%nat d _ _ _ Hst Hf ltac:(discriminate) Hs Hd H0 Hmax
                Hls Hls)
      as (H21 & _).
    rewrite (H21 Hfmt), Hw, Hh. reflexivity.
  - destruct (sample_scene_4x2 V4L2_PIX_FMT_NV12 eq_refl)
      as (Hst & Hf & Hs & Hd & Hw & Hh & Hfmt).
    repeat (split; [assumption |]).
    set (d := (sample_scene 4 2 V4L2_PIX_FMT_NV12).1.1) in *.
    assert (H0 : 0 <= mFrameWidth d * mFrameHeight d) by scene_dims Hw Hh.
    assert (Hmax : mFrameWidth d * mFrameHeight d * 3 <= INT_MAX)
      by scene_dims Hw Hh.
    assert (Hls : (Z.to_nat (mFrameWidth d * mFrameHeight d)
                   + Z.to_nat (mFrameWidth d * mFrameHeight d) / 2
                   <= 12)%nat) by scene_dims Hw Hh.
    assert (Heven : Z.even (mFrameWidth d * mFrameHeight d / 2) = true)
      by scene_dims Hw Hh.
    destruct (semiplanar_readout
                no_converter no_converter no_converter no_converter
                0%nat 1%nat d _ _ _ Hst Hf ltac:(discriminate) Hs Hd H0 Hmax
                Hls Hls)
      as (_ & H12).
    destruct (H12 Hfmt Heven) as (out & Hres & Hlen & Hluma & Hpairs & _).
    rewrite Hw, Hh in Hres, Hlen, Hluma, Hpairs.
    exists out. split; [exact Hres |]. split; [exact Hlen |].
    split; [exact Hluma |].
    destruct (Hpairs 0%nat ltac:(vm_compute; lia)) as [P0 P1].
    destruct (Hpairs 1%nat ltac:(vm_compute; lia)) as [P2 P3].
    split; [exact P0 |]. split; [exact P1 |]. split; [exact P2 | exact P3].
Defined.

(** C10. With [PREVIEW_FMT_RGBA32] off, a started device holding a frame
    whose format is neither NV21 nor NV12 (so one of the planar ones)
    answers [OK] to [getCurrentPreviewFrame] on a non-null destination and
    leaves the store, the destination block included, exactly as it was. *)
Theorem getCurrentPreviewFrame_planar_writes_nothing
    (YV12ToRGB32 YU12ToRGB32 NV21ToRGB32 NV12ToRGB32 : converter)
    (frame buf : nat) (d : V4L2Camera) (h : gmap nat (list byte)) :
  isStarted d = true ->
  mCurrentFrame d = Some frame ->
  mPixelFormat d <> V4L2_PIX_FMT_NV21 ->
  mPixelFormat d <> V4L2_PIX_FMT_NV12 ->
  getCurrentPreviewFrame false YV12ToRGB32 YU12ToRGB32 NV21ToRGB32
    NV12ToRGB32 (Some buf) d h = Some (OK, h).
Proof.
  intros Hst Hf H21 H12. unfold getCurrentPreviewFrame.
  rewrite Hst, Hf. cbn.
  apply Z.eqb_neq in H21, H12. rewrite H21, H12. reflexivity.
Qed.

Lemma getCurrentPreviewFrame_planar_writes_nothing_witness :
  let sc := sample_scene 4 2 V4L2_PIX_FMT_YVU420 in
  isStarted sc.1.1 = true /\ mCurrentFrame sc.1.1 = Some 0%nat /\
  mPixelFormat sc.1.1 <> V4L2_PIX_FMT_NV21 /\
  mPixelFormat sc.1.1 <> V4L2_PIX_FMT_NV12 /\
  getCurrentPreviewFrame false no_converter no_converter no_converter
    no_converter (Some 1%nat) sc.1.1 sc.1.2 = Some (OK, sc.1.2).
Proof.
  cbv zeta.
  destruct (sample_scene_4x2 V4L2_PIX_FMT_YVU420 eq_refl)
    as (Hst & Hf & _ & _ & _ & _ & Hfmt).
  assert (H21 : mPixelFormat (sample_scene 4 2 V4L2_PIX_FMT_YVU420).1.1
                <> V4L2_PIX_FMT_NV21) by (rewrite Hfmt; discriminate).
  assert (H12 : mPixelFormat (sample_scene 4 2 V4L2_PIX_FMT_YVU420).1.1
                <> V4L2_PIX_FMT_NV12) by (rewrite Hfmt; discriminate).
  split; [exact Hst |]. split; [exact Hf |]. split; [exact H21 |].
  split; [exact H12 |].
  apply (getCurrentPreviewFrame_planar_writes_nothing
           no_converter no_converter no_converter no_converter 0%nat 1%nat);
    assumption.
Defined.

(** * Further properties of the code *)

(** ** Initialize *)

(** [Initialize] answers [NO_ERROR] exactly when it leaves the device
    initialized.  Its only failure is [ENOMEM], on a device that was not
    initialized and for which no worker object could be created; the
    device is then still not initialized.  In both cases the frame pointer
    and the frame attributes are as before. *)
Theorem Initialize_status (o : option WorkerThread) (d : V4L2Camera) :
  let r := Initialize o d in
  frame_untouched d r.1.2 /\
  ((r.1.1 = NO_ERROR /\ isInitialized r.1.2 = true) \/
   (r.1.1 = ENOMEM /\ isInitialized r.1.2 = false /\
    isInitialized d = false /\ o = None)).
Proof.
  cbv zeta. unfold Initialize.
  destruct (isInitialized d) eqn:Hi; cbn.
  - split; [repeat split | left; split; [reflexivity | exact Hi]].
  - destruct o as [wt |]; cbn.
    + split; [repeat split | left; split; reflexivity].
    + split; [repeat split |]. right.
      split; [reflexivity |]. split; [exact Hi |]. split; reflexivity.
Qed.

(** A failed [Initialize] can be repeated: the second attempt, once a
    worker object is available, gives what a first successful attempt
    would have given. *)
Theorem Initialize_failure_can_be_retried
    (wt : WorkerThread) (d : V4L2Camera) :
  isInitialized d = false ->
  (Initialize None d).1.1 = ENOMEM /\
  Initialize (Some wt) (Initialize None d).1.2 = Initialize (Some wt) d /\
  (Initialize (Some wt) d).1.1 = NO_ERROR /\
  mState (Initialize (Some wt) d).1.2 = ECDS_INITIALIZED /\
  mWorkerThread (Initialize (Some wt) d).1.2 = Some wt.
Proof.
  intros Hi. unfold Initialize. rewrite Hi. cbn.
  assert (Hi' : isInitialized (set_mWorkerThread None d) = false) by exact Hi.
  rewrite Hi'. cbn. repeat split.
Qed.

Lemma Initialize_failure_can_be_retried_witness :
  let d := V4L2Camera_ctor 0 0 0 0 0 in
  let wt := mkWorkerThread (-1) (-1) in
  isInitialized d = false /\
  (Initialize None d).1.1 = ENOMEM /\
  (Initialize (Some wt) (Initialize None d).1.2).1.1 = NO_ERROR.
Proof.
  cbv zeta. split; [reflexivity |].
  destruct (Initialize_failure_can_be_retried (mkWorkerThread (-1) (-1))
              (V4L2Camera_ctor 0 0 0 0 0) eq_refl) as (H1 & H2 & H3 & _).
  split; [exact H1 |]. rewrite H2. exact H3.
Defined.

(** ** commonStartDevice and commonStopDevice *)

(** The three answers of [commonStartDevice] and when each is given:
    [EINVAL] exactly for an unsupported format, [ENOMEM] exactly when the
    format is supported and the allocation yields null, [NO_ERROR] exactly
    when the format is supported and the allocation yields a block. *)
Theorem commonStartDevice_status
    (width height pix_fmt : Z) (o : Mem.new_outcome)
    (d : V4L2Camera) (h : gmap nat (list byte)) :
  let r := commonStartDevice width height pix_fmt o d h in
  let p := (Mem.new_array h (idiv (imul (imul width height) 12) 8) o).2 in
  (r.1.1 = EINVAL <-> supported_format pix_fmt = false) /\
  (r.1.1 = ENOMEM <-> supported_format pix_fmt = true /\ p = NULL) /\
  (r.1.1 = NO_ERROR <-> supported_format pix_fmt = true /\ is_Some p).
Proof.
  cbv zeta. unfold commonStartDevice.
  destruct (supported_format pix_fmt); cbn.
  - destruct (Mem.new_array h (idiv (imul (imul width height) 12) 8) o)
      as [h1 [a |]]; cbn.
    + split; [split; discriminate |].
      split; [split; [discriminate | intros [_ [=]]] |].
      split; [eauto | reflexivity].
    + split; [split; discriminate |].
      split; [split; [eauto | reflexivity] |].
      split; [discriminate | intros [_ [x [=]]]].
  - split; [split; reflexivity |].
    split; [split; [discriminate | intros [[=] _]] |].
    split; [discriminate | intros [[=] _]].
Qed.

(** Neither [commonStartDevice] nor [commonStopDevice] changes the device
    state, the worker object, a flag or the timestamp, whatever the
    outcome: starting the common part does not make a device Started. *)
Theorem common_calls_keep_control
    (width height pix_fmt : Z) (o : Mem.new_outcome)
    (d : V4L2Camera) (h : gmap nat (list byte)) :
  control_untouched d (commonStartDevice width height pix_fmt o d h).1.2 /\
  control_untouched d (commonStopDevice d h).1.
Proof.
  split.
  - unfold commonStartDevice.
    destruct (supported_format pix_fmt); [| repeat split]. cbn.
    destruct (Mem.new_array h (idiv (imul (imul width height) 12) 8) o)
      as [h1 [a |]]; cbn; repeat split.
  - unfold commonStopDevice. cbn.
    destruct (mCurrentFrame d); cbn; repeat split.
Qed.

(** [commonStopDevice] twice is [commonStopDevice] once: the first call
    leaves the frame pointer null, so a second call, in whatever store it
    runs, deletes nothing, also no block that has come to live at the old
    address since, and leaves the device as the first call left it. *)
Theorem commonStopDevice_idempotent
    (d : V4L2Camera) (h h' : gmap nat (list byte)) :
  mCurrentFrame (commonStopDevice d h).1 = NULL /\
  commonStopDevice (commonStopDevice d h).1 h'
  = ((commonStopDevice d h).1, h').
Proof.
  unfold commonStopDevice. cbn.
  destruct (mCurrentFrame d) as [a |] eqn:Hp; cbn.
  - split; reflexivity.
  - rewrite Hp. split; reflexivity.
Qed.

(** What [commonStopDevice] undoes of a [commonStartDevice]. *)
Lemma start_then_stop_store
    (width height pix_fmt : Z) (o : Mem.new_outcome)
    (d : V4L2Camera) (h : gmap nat (list byte)) :
  supported_format pix_fmt = true ->
  let r := commonStartDevice width height pix_fmt o d h in
  (commonStopDevice r.1.2 r.2).2 = h /\
  mCurrentFrame (commonStopDevice r.1.2 r.2).1 = NULL.
Proof.
  intros Hs. cbv zeta. unfold commonStartDevice. rewrite Hs. cbn.
  destruct (Mem.new_array h (idiv (imul (imul width height) 12) 8) o)
    as [h1 p] eqn:Hnew.
  destruct p as [a |]; cbn.
  - pose proof (new_array_fresh h (idiv (imul (imul width height) 12) 8) o a)
      as Hf.
    rewrite Hnew in Hf.
    destruct (Hf eq_refl) as (Hnone & junk & _ & _ & Hh). cbn in Hh. subst h1.
    unfold commonStopDevice, Mem.delete_array. cbn.
    split; [apply delete_insert_id; exact Hnone | reflexivity].
  - pose proof (new_array_null h (idiv (imul (imul width height) 12) 8) o)
      as Hn.
    rewrite Hnew in Hn. cbn in Hn. rewrite (Hn eq_refl).
    unfold commonStopDevice. cbn. split; reflexivity.
Qed.

(** A [commonStartDevice] with a supported format followed by
    [commonStopDevice] leaves the store exactly as it was before the
    start: the block the start allocated (if any) is the one the stop
    frees, and no other block is touched. *)
Theorem start_then_stop_restores_store
    (width height pix_fmt : Z) (o : Mem.new_outcome)
    (d : V4L2Camera) (h : gmap nat (list byte)) :
  supported_format pix_fmt = true ->
  let r := commonStartDevice width height pix_fmt o d h in
  (commonStopDevice r.1.2 r.2).2 = h /\
  mCurrentFrame (commonStopDevice r.1.2 r.2).1 = NULL.
Proof. apply start_then_stop_store. Qed.

Lemma start_then_stop_restores_store_witness :
  let o := Mem.NewGives sample_byte in
  let h : gmap nat (list byte) := {[ 5%nat := ["007"]%byte ]} in
  let r := commonStartDevice 4 2 V4L2_PIX_FMT_NV21 o
             (V4L2Camera_ctor 0 0 0 0 0) h in
  supported_format V4L2_PIX_FMT_NV21 = true /\
  r.1.1 = NO_ERROR /\ size r.2 = 2%nat /\
  (commonStopDevice r.1.2 r.2).2 = h.
Proof.
  cbv zeta. split; [reflexivity |].
  split; [vm_compute; reflexivity |]. split; [vm_compute; reflexivity |].
  apply (start_then_stop_restores_store 4 2 V4L2_PIX_FMT_NV21
           (Mem.NewGives sample_byte) (V4L2Camera_ctor 0 0 0 0 0)
           {[ 5%nat := ["007"]%byte ]} eq_refl).
Defined.

(** [commonStartDevice] on a device that already holds a live frame
    buffer orphans it, whether the new allocation succeeds or fails: the
    old block stays in the store, the device no longer points to it, and
    a following [commonStopDevice] does not free it either. *)
Theorem commonStartDevice_orphans_held_buffer
    (width height pix_fmt : Z) (o : Mem.new_outcome)
    (d : V4L2Camera) (h : gmap nat (list byte)) (a : nat) (blk : list byte) :
  supported_format pix_fmt = true ->
  mCurrentFrame d = Some a -> h !! a = Some blk ->
  let r := commonStartDevice width height pix_fmt o d h in
  r.2 !! a = Some blk /\ mCurrentFrame r.1.2 <> Some a /\
  (commonStopDevice r.1.2 r.2).2 !! a = Some blk /\
  mCurrentFrame (commonStopDevice r.1.2 r.2).1 = NULL.
Proof.
  intros Hs Hp Ha. cbv zeta.
  destruct (start_then_stop_store width height pix_fmt o d h Hs)
    as [Hstore Hnull].
  rewrite Hstore. split; [| split; [| split; [exact Ha | exact Hnull]]].
  - unfold commonStartDevice. rewrite Hs. cbn.
    destruct (Mem.new_array h (idiv (imul (imul width height) 12) 8) o)
      as [h1 p] eqn:Hnew.
    destruct p as [b |]; cbn.
    + pose proof (new_array_fresh h (idiv (imul (imul width height) 12) 8)
                    o b) as Hf.
      rewrite Hnew in Hf.
      destruct (Hf eq_refl) as (Hnone & junk & _ & _ & Hh). cbn in Hh.
      subst h1. rewrite lookup_insert_ne by congruence. exact Ha.
    + pose proof (new_array_null h (idiv (imul (imul width height) 12) 8) o)
        as Hn.
      rewrite Hnew in Hn. cbn in Hn. rewrite (Hn eq_refl). exact Ha.
  - unfold commonStartDevice. rewrite Hs. cbn.
    destruct (Mem.new_array h (idiv (imul (imul width height) 12) 8) o)
      as [h1 p] eqn:Hnew.
    destruct p as [b |]; cbn; [| discriminate].
    pose proof (new_array_fresh h (idiv (imul (imul width height) 12) 8)
                  o b) as Hf.
    rewrite Hnew in Hf. destruct (Hf eq_refl) as (Hnone & _).
    congruence.
Qed.

Lemma commonStartDevice_orphans_held_buffer_witness :
  let o := Mem.NewGives sample_byte in
  let r0 := commonStartDevice 2 2 V4L2_PIX_FMT_NV12 o
              (V4L2Camera_ctor 0 0 0 0 0) ∅ in
  let blk := ["000"; "001"; "002"; "003"; "004"; "005"]%byte in
  let r := commonStartDevice 4 4 V4L2_PIX_FMT_NV12 Mem.NewFails
             r0.1.2 r0.2 in
  supported_format V4L2_PIX_FMT_NV12 = true /\
  mCurrentFrame r0.1.2 = Some 0%nat /\ r0.2 !! 0%nat = Some blk /\
  r.1.1 = ENOMEM /\ r.2 !! 0%nat = Some blk /\
  (commonStopDevice r.1.2 r.2).2 !! 0%nat = Some blk.
Proof.
  cbv zeta.
  assert (Hp : mCurrentFrame
                 (commonStartDevice 2 2 V4L2_PIX_FMT_NV12
                    (Mem.NewGives sample_byte)
                    (V4L2Camera_ctor 0 0 0 0 0) ∅).1.2 = Some 0%nat)
    by (vm_compute; reflexivity).
  assert (Ha : (commonStartDevice 2 2 V4L2_PIX_FMT_NV12
                  (Mem.NewGives sample_byte)
                  (V4L2Camera_ctor 0 0 0 0 0) ∅).2 !! 0%nat
               = Some ["000"; "001"; "002"; "003"; "004"; "005"]%byte)
    by (vm_compute; reflexivity).
  destruct (commonStartDevice_orphans_held_buffer 4 4 V4L2_PIX_FMT_NV12
              Mem.NewFails _ _ 0%nat _ eq_refl Hp Ha)
    as (H1 & _ & H2 & _).
  split; [reflexivity |]. split; [exact Hp |]. split; [exact Ha |].
  split; [vm_compute; reflexivity |]. split; [exact H1 | exact H2].
Defined.

(** The destructor releases exactly what [commonStopDevice] releases.
    After [commonStopDevice] the frame pointer is null, so the destructor
    run then, in whatever store, deletes nothing: the block that
    [commonStopDevice] deleted is not deleted a second time. *)
Theorem destructor_after_stop_frees_nothing
    (d : V4L2Camera) (h h' : gmap nat (list byte)) :
  V4L2Camera_dtor d h = (commonStopDevice d h).2 /\
  mCurrentFrame (commonStopDevice d h).1 = NULL /\
  V4L2Camera_dtor (commonStopDevice d h).1 h' = h'.
Proof.
  unfold V4L2Camera_dtor, commonStopDevice. cbn.
  destruct (mCurrentFrame d) as [a |] eqn:Hp; cbn.
  - repeat split.
  - rewrite Hp. repeat split.
Qed.

(** A zero-sized resolution is not rejected: with a supported format and a
    width or height of zero, [commonStartDevice] asks for zero bytes and,
    if the allocator grants them, answers [NO_ERROR] holding an empty
    block. *)
Theorem commonStartDevice_accepts_empty_frame
    (width height pix_fmt : Z) (junk : nat -> byte)
    (d : V4L2Camera) (h : gmap nat (list byte)) :
  supported_format pix_fmt = true ->
  width = 0 \/ height = 0 ->
  let r := commonStartDevice width height pix_fmt (Mem.NewGives junk) d h in
  r.1.1 = NO_ERROR /\ mFrameBufferSize r.1.2 = 0 /\
  exists a, mCurrentFrame r.1.2 = Some a /\ h !! a = None /\
            r.2 = <[a := []]> h.
Proof.
  intros Hs Hz. cbv zeta. unfold commonStartDevice. rewrite Hs. cbn.
  assert (Hsize : idiv (imul (imul width height) 12) 8 = 0).
  { assert (Hwh : width * height = 0) by (destruct Hz; subst; lia).
    unfold imul. rewrite Hwh. reflexivity. }
  rewrite Hsize. cbn.
  split; [reflexivity |]. split; [reflexivity |].
  exists (fresh (dom h)). split; [reflexivity |].
  split; [apply not_elem_of_dom, is_fresh | reflexivity].
Qed.

Lemma commonStartDevice_accepts_empty_frame_witness :
  let r := commonStartDevice 0 480 V4L2_PIX_FMT_YUV420
             (Mem.NewGives sample_byte) (V4L2Camera_ctor 0 0 0 0 0) ∅ in
  supported_format V4L2_PIX_FMT_YUV420 = true /\ (0 = 0 \/ 480 = 0) /\
  r.1.1 = NO_ERROR /\ mFrameBufferSize r.1.2 = 0.
Proof.
  cbv zeta.
  destruct (commonStartDevice_accepts_empty_frame 0 480 V4L2_PIX_FMT_YUV420
              sample_byte (V4L2Camera_ctor 0 0 0 0 0) ∅ eq_refl
              (or_introl eq_refl)) as (H1 & H2 & _).
  split; [reflexivity |]. split; [left; reflexivity |].
  split; [exact H1 | exact H2].
Defined.

(** ** Read-out: what is written and where *)

Lemma only_wrote_refl dst h : only_wrote dst h h.
Proof. split; reflexivity. Qed.

Lemma only_wrote_trans dst h1 h2 h3 :
  only_wrote dst h1 h2 -> only_wrote dst h2 h3 -> only_wrote dst h1 h3.
Proof.
  intros [A1 L1] [A2 L2]. split.
  - intros a Ha. rewrite A2, A1 by exact Ha. reflexivity.
  - intros a. rewrite L2, L1. reflexivity.
Qed.

Lemma only_wrote_insert dst h blk blk' :
  h !! dst = Some blk -> length blk' = length blk ->
  only_wrote dst h (<[dst := blk']> h).
Proof.
  intros Hd Hlen. split.
  - intros a Ha. apply lookup_insert_ne. congruence.
  - intros a. destruct (decide (a = dst)) as [-> | Hne].
    + rewrite lookup_insert_eq, Hd. cbn. congruence.
    + rewrite lookup_insert_ne by congruence. reflexivity.
Qed.

(** A successful load or store lies inside its block. *)
Lemma load_Some_inv h p off b :
  Mem.load h p off = Some b ->
  exists blk, h !! p = Some blk /\ 0 <= off /\
              (Z.to_nat off < length blk)%nat.
Proof.
  unfold Mem.load. destruct (off <? 0) eqn:Hneg; [discriminate |].
  apply Z.ltb_ge in Hneg.
  destruct (h !! p) as [blk |]; cbn; [| discriminate].
  intros Hb. exists blk. split; [reflexivity |]. split; [exact Hneg |].
  eapply lookup_lt_Some. exact Hb.
Qed.

Lemma store_Some_inv h p off v h' :
  Mem.store h p off v = Some h' ->
  exists blk, h !! p = Some blk /\ 0 <= off /\
              (Z.to_nat off < length blk)%nat /\
              h' = <[p := <[Z.to_nat off := v]> blk]> h.
Proof.
  unfold Mem.store. destruct (off <? 0) eqn:Hneg; [discriminate |].
  apply Z.ltb_ge in Hneg.
  destruct (h !! p) as [blk |]; cbn; [| discriminate].
  destruct (off <? Z.of_nat (length blk)) eqn:Hin; [| discriminate].
  apply Z.ltb_lt in Hin. intros [= <-].
  exists blk. repeat split; try assumption; lia.
Qed.

Lemma store_only_wrote h p off v h' :
  Mem.store h p off v = Some h' -> only_wrote p h h'.
Proof.
  intros Hst. destruct (store_Some_inv _ _ _ _ _ Hst)
    as (blk & Hp & _ & _ & ->).
  apply (only_wrote_insert p h blk); [exact Hp | apply length_insert].
Qed.

Lemma memcpy_Some_inv h dst src n h' :
  Mem.memcpy h dst src n = Some h' ->
  exists s d, h !! src = Some s /\ h !! dst = Some d /\ 0 <= n /\
              (Z.to_nat n <= length s)%nat /\ (Z.to_nat n <= length d)%nat /\
              (dst <> src \/ n = 0) /\
              h' = <[dst := take (Z.to_nat n) s ++ drop (Z.to_nat n) d]> h.
Proof.
  unfold Mem.memcpy. destruct (n <? 0) eqn:Hneg; [discriminate |].
  apply Z.ltb_ge in Hneg.
  destruct (h !! src) as [s |]; cbn; [| discriminate].
  destruct (h !! dst) as [d |]; cbn; [| discriminate].
  destruct (n <=? Z.of_nat (length s)) eqn:H1; cbn; [| discriminate].
  destruct (n <=? Z.of_nat (length d)) eqn:H2; cbn; [| discriminate].
  apply Z.leb_le in H1, H2.
  destruct (bool_decide (dst = src)) eqn:Hsame; cbn.
  - destruct (0 <? n) eqn:Hpos; [discriminate |].
    apply Z.ltb_ge in Hpos. intros [= <-].
    exists s, d. repeat split; try assumption; lia.
  - intros [= <-]. apply bool_decide_eq_false in Hsame.
    exists s, d. repeat split; try assumption; lia.
Qed.

Lemma memcpy_only_wrote h dst src n h' :
  Mem.memcpy h dst src n = Some h' -> only_wrote dst h h'.
Proof.
  intros Hm. destruct (memcpy_Some_inv _ _ _ _ _ Hm)
    as (s & d & _ & Hd & _ & Hls & Hld & _ & ->).
  apply (only_wrote_insert dst h d); [exact Hd |].
  rewrite length_app, length_take, length_drop. lia.
Qed.

Lemma NV12ToNV21_body_only_wrote nv12 nv21 uv i h h' :
  NV12ToNV21_body nv12 nv21 uv i h = Some h' -> only_wrote nv21 h h'.
Proof.
  unfold NV12ToNV21_body.
  destruct (Mem.load h nv12 (uv + (i + 1))) as [a |]; cbn; [| discriminate].
  destruct (Mem.store h nv21 (uv + i) a) as [h1 |] eqn:H1; cbn;
    [| discriminate].
  destruct (Mem.load h1 nv12 (uv + i)) as [b |]; cbn; [| discriminate].
  intros H2.
  eapply only_wrote_trans; eapply store_only_wrote; eassumption.
Qed.

Lemma for_each_only_wrote body dst :
  (forall i h h', body i h = Some h' -> only_wrote dst h h') ->
  forall ixs h h', for_each body ixs h = Some h' -> only_wrote dst h h'.
Proof.
  intros Hbody. induction ixs as [| i ixs IH]; intros h h'; cbn.
  - intros [= <-]. apply only_wrote_refl.
  - destruct (body i h) as [h1 |] eqn:Hb; cbn; [| discriminate].
    intros Hrest. eapply only_wrote_trans; eauto.
Qed.

Lemma NV12ToNV21_only_wrote h nv12 nv21 w hgt h' :
  NV12ToNV21 h nv12 nv21 w hgt = Some h' -> only_wrote nv21 h h'.
Proof.
  unfold NV12ToNV21.
  destruct (Mem.memcpy h nv21 nv12 (imul w hgt)) as [h1 |] eqn:Hm; cbn;
    [| discriminate].
  intros Hloop. eapply only_wrote_trans.
  - eapply memcpy_only_wrote. exact Hm.
  - eapply for_each_only_wrote; [| exact Hloop].
    intros i h2 h3. apply NV12ToNV21_body_only_wrote.
Qed.

(** With [PREVIEW_FMT_RGBA32] off, whenever [getCurrentPreviewFrame]
    has a result, the status is [OK] or [EINVAL] and at most the contents
    of the destination block have changed: the frame buffer and every
    other block are as before, no block has appeared, vanished or changed
    its length. *)
Theorem getCurrentPreviewFrame_writes_only_destination
    (YV12ToRGB32 YU12ToRGB32 NV21ToRGB32 NV12ToRGB32 : converter)
    (buf : nat) (d : V4L2Camera) (h h' : gmap nat (list byte))
    (res : status_t) :
  getCurrentPreviewFrame false YV12ToRGB32 YU12ToRGB32 NV21ToRGB32
    NV12ToRGB32 (Some buf) d h = Some (res, h') ->
  (res = OK \/ res = EINVAL) /\ only_wrote buf h h'.
Proof.
  unfold getCurrentPreviewFrame.
  destruct (isStarted d); cbn;
    [| intros [= <- <-]; split; [right; reflexivity | apply only_wrote_refl]].
  destruct (mCurrentFrame d) as [frame |];
    [| intros [= <- <-]; split; [right; reflexivity | apply only_wrote_refl]].
  destruct (mPixelFormat d =? V4L2_PIX_FMT_NV21).
  - destruct (Mem.memcpy h buf frame _) as [h1 |] eqn:Hm; cbn;
      [| discriminate].
    intros [= <- <-]. split; [left; reflexivity |].
    eapply memcpy_only_wrote. exact Hm.
  - destruct (mPixelFormat d =? V4L2_PIX_FMT_NV12).
    + destruct (NV12ToNV21 h frame buf _ _) as [h1 |] eqn:Hc; cbn;
        [| discriminate].
      intros [= <- <-]. split; [left; reflexivity |].
      eapply NV12ToNV21_only_wrote. exact Hc.
    + intros [= <- <-]. split; [left; reflexivity | apply only_wrote_refl].
Qed.

Lemma getCurrentPreviewFrame_writes_only_destination_witness :
  let sc := sample_scene 4 2 V4L2_PIX_FMT_NV12 in
  let r := getCurrentPreviewFrame false no_converter no_converter
             no_converter no_converter (Some 1%nat) sc.1.1 sc.1.2 in
  exists h', r = Some (OK, h') /\ h' !! 0%nat = sc.1.2 !! 0%nat /\
             only_wrote 1 sc.1.2 h'.
Proof.
  cbv zeta.
  destruct (getCurrentPreviewFrame false no_converter no_converter
              no_converter no_converter (Some 1%nat)
              (sample_scene 4 2 V4L2_PIX_FMT_NV12).1.1
              (sample_scene 4 2 V4L2_PIX_FMT_NV12).1.2)
    as [[res h'] |] eqn:Hr; [| vm_compute in Hr; discriminate].
  assert (Hres : res = OK).
  { pose proof Hr as Hr'. vm_compute in Hr'.
    injection Hr' as Hres _. symmetry. exact Hres. }
  subst res. exists h'. split; [reflexivity |].
  destruct (getCurrentPreviewFrame_writes_only_destination _ _ _ _ _ _ _ _ _
              Hr) as (_ & Hw).
  split; [apply Hw; discriminate | exact Hw].
Defined.

(** [getCurrentPreviewFrame] refuses, with [EINVAL] and without touching
    the store, a device that is not Started, a device without a frame
    buffer and a null destination, whatever the build switch and the
    converters. *)
Theorem getCurrentPreviewFrame_rejects
    (PREVIEW_FMT_RGBA32 : bool)
    (YV12ToRGB32 YU12ToRGB32 NV21ToRGB32 NV12ToRGB32 : converter)
    (buffer : ptr) (d : V4L2Camera) (h : gmap nat (list byte)) :
  isStarted d = false \/ mCurrentFrame d = NULL \/ buffer = NULL ->
  getCurrentPreviewFrame PREVIEW_FMT_RGBA32 YV12ToRGB32 YU12ToRGB32
    NV21ToRGB32 NV12ToRGB32 buffer d h = Some (EINVAL, h).
Proof.
  intros H. unfold getCurrentPreviewFrame.
  destruct (isStarted d); cbn; [| reflexivity].
  destruct H as [H | [H | H]]; [discriminate | |].
  - rewrite H. reflexivity.
  - rewrite H. destruct (mCurrentFrame d); reflexivity.
Qed.

Lemma getCurrentPreviewFrame_rejects_witness :
  let sc := sample_scene 4 2 V4L2_PIX_FMT_NV21 in
  let stopped := commonStopDevice sc.1.1 sc.1.2 in
  isStarted stopped.1 = true /\ mCurrentFrame stopped.1 = NULL /\
  getCurrentPreviewFrame false no_converter no_converter no_converter
    no_converter (Some 1%nat) stopped.1 stopped.2 = Some (EINVAL, stopped.2).
Proof.
  cbv zeta.
  assert (Hnull : mCurrentFrame
                    (commonStopDevice
                       (sample_scene 4 2 V4L2_PIX_FMT_NV21).1.1
                       (sample_scene 4 2 V4L2_PIX_FMT_NV21).1.2).1 = NULL)
    by (vm_compute; reflexivity).
  split; [vm_compute; reflexivity |]. split; [exact Hnull |].
  apply getCurrentPreviewFrame_rejects. right. left. exact Hnull.
Defined.

(** ** NV12ToNV21: exactly when it stays inside its buffers *)

(** What [NV12ToNV21] writes for any dimensions, given blocks that reach
    as far as the chroma loop does: the luma plane, then the chroma bytes
    in exchanged pairs, the last pair possibly straddling the end of the
    frame. *)
Lemma NV12ToNV21_result h nv12 nv21 w hgt s d :
  nv12 <> nv21 -> h !! nv12 = Some s -> h !! nv21 = Some d ->
  0 <= imul w hgt ->
  (NV12ToNV21_reach w hgt <= length s)%nat ->
  (NV12ToNV21_reach w hgt <= length d)%nat ->
  let n := Z.to_nat (imul w hgt) in
  let k := chroma_pairs w hgt in
  NV12ToNV21 h nv12 nv21 w hgt
  = Some (<[nv21 := take n s ++ swap_pairs (take (2 * k) (drop n s))
                    ++ drop (n + 2 * k) d]> h).
Proof.
  intros Hne Hs Hd H0 Hls Hld n k.
  unfold NV12ToNV21_reach in Hls, Hld. fold n k in Hls, Hld.
  unfold NV12ToNV21.
  rewrite (memcpy_copy h nv21 nv12 (imul w hgt) s d)
    by (try assumption; try congruence; fold n; lia).
  fold n. cbn [mbind option_bind].
  unfold pair_indices. fold (chroma_pairs w hgt). fold k.
  rewrite (chroma_loop nv12 nv21 (imul w hgt) Hne H0 k 0
             (take n s) (take (2 * k) (drop n s)) (drop (2 * k) (drop n s))
             (take n s) (take (2 * k) (drop n d)) (drop (2 * k) (drop n d))).
  - rewrite insert_insert_eq, drop_drop. reflexivity.
  - rewrite lookup_insert_ne by congruence. rewrite !take_drop. exact Hs.
  - rewrite lookup_insert_eq, take_drop. reflexivity.
  - rewrite length_take. fold n. lia.
  - rewrite length_take. fold n. lia.
  - rewrite length_take, length_drop. lia.
  - rewrite length_take, length_drop. lia.
Qed.

Lemma NV12ToNV21_body_Some_inv nv12 nv21 uv i h h' :
  NV12ToNV21_body nv12 nv21 uv i h = Some h' ->
  exists s d, h !! nv12 = Some s /\ h !! nv21 = Some d /\
              0 <= uv + (i + 1) /\
              (Z.to_nat (uv + (i + 1)) < length s)%nat /\
              (Z.to_nat (uv + (i + 1)) < length d)%nat.
Proof.
  unfold NV12ToNV21_body.
  destruct (Mem.load h nv12 (uv + (i + 1))) as [a |] eqn:L1; cbn;
    [| discriminate].
  destruct (Mem.store h nv21 (uv + i) a) as [h1 |] eqn:S1; cbn;
    [| discriminate].
  destruct (Mem.load h1 nv12 (uv + i)) as [b |] eqn:L2; cbn;
    [| discriminate].
  intros S2.
  destruct (load_Some_inv _ _ _ _ L1) as (s & Hs & Hoff & Hlt).
  destruct (store_Some_inv _ _ _ _ _ S1) as (d & Hd & _ & _ & _).
  destruct (store_Some_inv _ _ _ _ _ S2) as (d1 & Hd1 & _ & Hlt1 & _).
  destruct (store_only_wrote _ _ _ _ _ S1) as [_ Hlen].
  specialize (Hlen nv21). rewrite Hd1, Hd in Hlen. cbn in Hlen.
  exists s, d. repeat split; try assumption. congruence.
Qed.

Lemma for_each_member body dst :
  (forall i h h', body i h = Some h' -> only_wrote dst h h') ->
  forall ixs h h' i, for_each body ixs h = Some h' -> i ∈ ixs ->
    exists hi hi', only_wrote dst h hi /\ body i hi = Some hi'.
Proof.
  intros Hbody. induction ixs as [| j ixs IH]; intros h h' i; cbn.
  - intros _ Hin. apply elem_of_nil in Hin. destruct Hin.
  - destruct (body j h) as [h1 |] eqn:Hb; cbn; [| discriminate].
    intros Hrest Hin. apply elem_of_cons in Hin. destruct Hin as [-> | Hin].
    + exists h, h1. split; [apply only_wrote_refl | exact Hb].
    + destruct (IH h1 h' i Hrest Hin) as (hi & hi' & Hw & Hbi).
      exists hi, hi'. split; [| exact Hbi].
      eapply only_wrote_trans; [eapply Hbody; exact Hb | exact Hw].
Qed.

(** When [NV12ToNV21] has a result. *)
Lemma NV12ToNV21_is_Some_iff
    (h : gmap nat (list byte)) (nv12 nv21 : nat) (width height : Z) :
  is_Some (NV12ToNV21 h nv12 nv21 width height) <->
  0 <= imul width height /\
  (nv12 <> nv21 \/ imul width height = 0) /\
  exists s d, h !! nv12 = Some s /\ h !! nv21 = Some d /\
              (NV12ToNV21_reach width height <= length s)%nat /\
              (NV12ToNV21_reach width height <= length d)%nat.
Proof.
  split.
  - intros [h' Hconv]. revert Hconv. unfold NV12ToNV21.
    destruct (Mem.memcpy h nv21 nv12 (imul width height)) as [h1 |] eqn:Hm;
      cbn; [| discriminate].
    intros Hloop.
    destruct (memcpy_Some_inv _ _ _ _ _ Hm)
      as (s & d & Hs & Hd & H0 & Hls & Hld & Hdist & _).
    split; [exact H0 |]. split; [destruct Hdist; [left; congruence | tauto] |].
    exists s, d. split; [exact Hs |]. split; [exact Hd |].
    unfold NV12ToNV21_reach.
    destruct (chroma_pairs width height) as [| k] eqn:Hk; [lia |].
    assert (Hin : 2 * Z.of_nat k ∈ pair_indices (idiv (imul width height) 2)).
    { unfold pair_indices. fold (chroma_pairs width height). rewrite Hk.
      apply list_elem_of_fmap. exists k. split; [reflexivity |].
      apply elem_of_seq. lia. }
    destruct (for_each_member _ nv21
                (fun i h2 h3 => NV12ToNV21_body_only_wrote nv12 nv21 _ i h2 h3)
                _ _ _ _ Hloop Hin) as (hi & hi' & Hw & Hbody).
    destruct (NV12ToNV21_body_Some_inv _ _ _ _ _ _ Hbody)
      as (si & di & Hsi & Hdi & _ & Hlts & Hltd).
    destruct (memcpy_only_wrote _ _ _ _ _ Hm) as [_ Hlen1].
    destruct Hw as [_ Hlen2].
    pose proof (Hlen2 nv12) as E1. rewrite Hlen1, Hsi, Hs in E1.
    pose proof (Hlen2 nv21) as E2. rewrite Hlen1, Hdi, Hd in E2.
    cbn in E1, E2. injection E1 as E1. injection E2 as E2.
    split; lia.
  - intros (H0 & Hdist & s & d & Hs & Hd & Hls & Hld).
    destruct (decide (nv12 = nv21)) as [-> | Hne].
    + destruct Hdist as [Hne | Hz]; [congruence |].
      unfold NV12ToNV21, Mem.memcpy. rewrite Hz. cbn.
      rewrite Hs. cbn.
      assert (Hle : (0 <=? Z.of_nat (length s)) = true)
        by (apply Z.leb_le; lia).
      rewrite Hle. change (pair_indices (idiv 0 2)) with (@nil Z).
      cbn. rewrite andb_false_r. cbn. eauto.
    + rewrite (NV12ToNV21_result h nv12 nv21 width height s d)
        by assumption.
      eauto.
Qed.

(** On distinct source and destination blocks, [NV12ToNV21] has a defined
    result exactly when the pixel count [width * height] (as an [int]) is
    not negative, both blocks are live, and each is at least as long as
    the conversion reaches: the luma plane plus the chroma length rounded
    up to whole pairs. *)
Theorem NV12ToNV21_defined_iff
    (h : gmap nat (list byte)) (nv12 nv21 : nat) (width height : Z) :
  nv12 <> nv21 ->
  is_Some (NV12ToNV21 h nv12 nv21 width height) <->
  0 <= imul width height /\
  exists s d, h !! nv12 = Some s /\ h !! nv21 = Some d /\
              (NV12ToNV21_reach width height <= length s)%nat /\
              (NV12ToNV21_reach width height <= length d)%nat.
Proof.
  intros Hne. rewrite NV12ToNV21_is_Some_iff. split.
  - intros (H0 & _ & Hblocks). split; assumption.
  - intros (H0 & Hblocks). split; [exact H0 |]. split; [left; exact Hne |].
    exact Hblocks.
Qed.

Lemma NV12ToNV21_defined_iff_witness :
  let s := ["001"; "002"; "003"; "004"; "005"; "006"]%byte in
  let t := ["000"; "000"; "000"; "000"; "000"; "000"]%byte in
  let h : gmap nat (list byte) := <[0%nat := s]> (<[1%nat := t]> ∅) in
  0%nat <> 1%nat /\
  is_Some (NV12ToNV21 h 0 1 2 2) /\
  ~ is_Some (NV12ToNV21 h 0 1 2 3).
Proof.
  cbv zeta.
  assert (Hne : 0%nat <> 1%nat) by discriminate.
  split; [exact Hne |]. split.
  - apply (proj2 (NV12ToNV21_defined_iff _ 0 1 2 2 Hne)).
    split; [vm_compute; discriminate |].
    eexists _, _. split; [reflexivity |]. split; [reflexivity |].
    split; vm_compute; lia.
  - intros Hsome.
    apply (proj1 (NV12ToNV21_defined_iff _ 0 1 2 3 Hne)) in Hsome.
    destruct Hsome as (_ & s & d & Hs & _ & Hls & _).
    vm_compute in Hs. injection Hs as <-. vm_compute in Hls. lia.
Defined.

(** For any dimensions, on distinct blocks that reach as far as the
    conversion does, [NV12ToNV21] copies the luma plane, writes the chroma
    bytes in exchanged pairs up to its reach, and leaves the destination
    behind its reach as it was. *)
Theorem NV12ToNV21_writes
    (h : gmap nat (list byte)) (nv12 nv21 : nat) (width height : Z)
    (s d : list byte) :
  nv12 <> nv21 -> h !! nv12 = Some s -> h !! nv21 = Some d ->
  0 <= imul width height ->
  (NV12ToNV21_reach width height <= length s)%nat ->
  (NV12ToNV21_reach width height <= length d)%nat ->
  let n := Z.to_nat (imul width height) in
  let k := chroma_pairs width height in
  NV12ToNV21 h nv12 nv21 width height
  = Some (<[nv21 := take n s ++ swap_pairs (take (2 * k) (drop n s))
                    ++ drop (n + 2 * k) d]> h).
Proof. apply NV12ToNV21_result. Qed.

Lemma NV12ToNV21_writes_witness :
  let h : gmap nat (list byte) :=
    <[1%nat := ["100"; "101"; "102"; "103"; "104"; "105"]%byte]>
      (<[0%nat := ["000"; "001"; "002"; "003"; "004"; "005"]%byte]> ∅) in
  NV12ToNV21_reach 2 1 = 4%nat /\
  NV12ToNV21 h 0 1 2 1
  = Some (<[1%nat := ["000"; "001"; "003"; "002"; "104"; "105"]%byte]> h).
Proof.
  cbv zeta. split; [reflexivity |].
  rewrite (NV12ToNV21_writes
             (<[1%nat := ["100"; "101"; "102"; "103"; "104"; "105"]%byte]>
                (<[0%nat := ["000"; "001"; "002"; "003"; "004";
                             "005"]%byte]> ∅))
             0%nat 1%nat 2 1
             ["000"; "001"; "002"; "003"; "004"; "005"]%byte
             ["100"; "101"; "102"; "103"; "104"; "105"]%byte
             ltac:(discriminate) eq_refl eq_refl).
  - reflexivity.
  - vm_compute. discriminate.
  - vm_compute. lia.
  - vm_compute. lia.
Defined.

(** The overrun made exact: on blocks that hold the frame and nothing
    more, a frame with an odd number of chroma bytes is never converted,
    and a frame with an even number always is. *)
Theorem NV12ToNV21_on_exact_frame
    (h : gmap nat (list byte)) (nv12 nv21 : nat) (width height : Z)
    (s d : list byte) :
  nv12 <> nv21 -> h !! nv12 = Some s -> h !! nv21 = Some d ->
  0 <= width * height -> width * height <= INT_MAX ->
  let n := Z.to_nat (width * height) in
  length s = (n + n / 2)%nat -> length d = (n + n / 2)%nat ->
  (is_Some (NV12ToNV21 h nv12 nv21 width height)
   <-> Z.even (width * height / 2) = true).
Proof.
  intros Hne Hs Hd H0 Hmax n Hls Hld.
  assert (Hn : imul width height = width * height)
    by (apply imul_exact; int_range).
  assert (Hlim : idiv (imul width height) 2 = width * height / 2)
    by (apply half_pixels; assumption).
  assert (Hhalf : Z.to_nat (width * height / 2) = (n / 2)%nat)
    by (apply half_to_nat; exact H0).
  assert (Hpos : 0 <= width * height / 2) by (apply Z.div_pos; lia).
  rewrite NV12ToNV21_is_Some_iff.
  unfold NV12ToNV21_reach, chroma_pairs. rewrite Hlim, Hn. fold n.
  destruct (Z.even (width * height / 2)) eqn:He.
  - split; [reflexivity | intros _].
    apply Z.even_spec in He. destruct He as [k Hk].
    assert (Hpairs : (width * height / 2 + 1) / 2 = k).
    { rewrite Hk. symmetry. apply (Z.div_unique (2 * k + 1) 2 k 1); lia. }
    split; [exact H0 |]. split; [left; exact Hne |].
    exists s, d. split; [exact Hs |]. split; [exact Hd |].
    rewrite Hpairs, Hls, Hld, <- Hhalf, Hk. split; lia.
  - split; [| discriminate].
    intros (_ & _ & s' & d' & Hs' & _ & Hlen & _).
    rewrite Hs in Hs'. injection Hs' as <-.
    assert (Hodd : Z.odd (width * height / 2) = true)
      by (rewrite <- Z.negb_even, He; reflexivity).
    apply Z.odd_spec in Hodd. destruct Hodd as [k Hk].
    assert (Hpairs : (width * height / 2 + 1) / 2 = k + 1).
    { rewrite Hk. symmetry.
      apply (Z.div_unique (2 * k + 1 + 1) 2 (k + 1) 0); lia. }
    rewrite Hpairs, Hls, <- Hhalf, Hk in Hlen. lia.
Qed.

Lemma NV12ToNV21_on_exact_frame_witness :
  let h : gmap nat (list byte) :=
    <[1%nat := replicate 9 "000"%byte]>
      (<[0%nat := replicate 9 "001"%byte]> ∅) in
  0 <= 2 * 3 /\ Z.even (2 * 3 / 2) = false /\
  NV12ToNV21 h 0 1 2 3 = None.
Proof.
  cbv zeta. split; [lia |]. split; [reflexivity |].
  destruct (NV12ToNV21_on_exact_frame
              (<[1%nat := replicate 9 "000"%byte]>
                 (<[0%nat := replicate 9 "001"%byte]> ∅))
              0%nat 1%nat 2 3 (replicate 9 "001"%byte)
              (replicate 9 "000"%byte)
              ltac:(discriminate) eq_refl eq_refl ltac:(lia)
              ltac:(unfold INT_MAX; lia) eq_refl eq_refl) as [Hodd _].
  destruct (NV12ToNV21 _ 0 1 2 3) as [h' |]; [| reflexivity].
  specialize (Hodd (ex_intro _ h' eq_refl)). discriminate.
Defined.

(** ** Start, then read *)

(** For a pixel count [width * height] that is not negative and whose
    product by 12 fits an [int]: after a successful [commonStartDevice]
    for NV21, or for NV12 with a chroma plane of whole pairs, once the
    device is Started a read-out (with [PREVIEW_FMT_RGBA32] off) into a
    destination that was live before the start and has room for the
    frame answers [OK] and delivers the whole of the newly allocated
    block: the block and the read-out have the same length,
    [width * height * 12 / 8 = width * height * 3 / 2]. *)
Theorem start_then_read
    (YV12ToRGB32 YU12ToRGB32 NV21ToRGB32 NV12ToRGB32 : converter)
    (width height pix_fmt : Z) (o : Mem.new_outcome)
    (d d1 : V4L2Camera) (h h1 : gmap nat (list byte))
    (buf : nat) (dst : list byte) :
  commonStartDevice width height pix_fmt o d h = (NO_ERROR, d1, h1) ->
  h !! buf = Some dst ->
  0 <= width * height -> width * height * 12 <= INT_MAX ->
  let n := Z.to_nat (width * height) in
  (n + n / 2 <= length dst)%nat ->
  (pix_fmt = V4L2_PIX_FMT_NV21 \/
   (pix_fmt = V4L2_PIX_FMT_NV12 /\ Z.even (width * height / 2) = true)) ->
  exists frame s,
    mCurrentFrame d1 = Some frame /\ h1 !! frame = Some s /\
    length s = (n + n / 2)%nat /\
    getCurrentPreviewFrame false YV12ToRGB32 YU12ToRGB32 NV21ToRGB32
      NV12ToRGB32 (Some buf) (set_mState ECDS_STARTED d1) h1
    = Some (OK, <[buf := (if pix_fmt =? V4L2_PIX_FMT_NV21 then s
                          else preview_of_nv12 n s)
                         ++ drop (n + n / 2) dst]> h1).
Proof.
  intros Hstart Hbuf H0 Hmax n Hroom Hfmt.
  destruct (commonStartDevice_block_holds_frame _ _ _ _ _ _ _ _ Hstart H0 Hmax)
    as (frame & s & Hframe & Hs & Hlen).
  destruct (commonStartDevice_success _ _ _ _ _ _ _ _ Hstart)
    as (a & junk & _ & _ & _ & Hnone & Hh1 & Hd1).
  assert (Hw : mFrameWidth d1 = width) by (rewrite Hd1; reflexivity).
  assert (Hh : mFrameHeight d1 = height) by (rewrite Hd1; reflexivity).
  assert (Hpf : mPixelFormat d1 = pix_fmt) by (rewrite Hd1; reflexivity).
  assert (Ha : frame = a) by (rewrite Hd1 in Hframe; cbn in Hframe; congruence).
  assert (Hne : frame <> buf) by (intros ->; congruence).
  assert (Hbuf1 : h1 !! buf = Some dst).
  { rewrite Hh1, lookup_insert_ne by congruence. exact Hbuf. }
  rewrite Hw, Hh in Hlen. fold n in Hlen.
  assert (Hmax3 : width * height * 3 <= INT_MAX) by lia.
  exists frame, s. split; [exact Hframe |]. split; [exact Hs |].
  split; [exact Hlen |].
  set (d2 := set_mState ECDS_STARTED d1).
  assert (Hst : isStarted d2 = true) by reflexivity.
  assert (Hf2 : mCurrentFrame d2 = Some frame) by exact Hframe.
  assert (Hw2 : mFrameWidth d2 = width) by exact Hw.
  assert (Hh2 : mFrameHeight d2 = height) by exact Hh.
  assert (Hpf2 : mPixelFormat d2 = pix_fmt) by exact Hpf.
  assert (H02 : 0 <= mFrameWidth d2 * mFrameHeight d2)
    by (rewrite Hw2, Hh2; exact H0).
  assert (Hm2 : mFrameWidth d2 * mFrameHeight d2 * 3 <= INT_MAX)
    by (rewrite Hw2, Hh2; exact Hmax3).
  assert (Hls2 : (Z.to_nat (mFrameWidth d2 * mFrameHeight d2)
                  + Z.to_nat (mFrameWidth d2 * mFrameHeight d2) / 2
                  <= length s)%nat)
    by (rewrite Hw2, Hh2; fold n; lia).
  assert (Hld2 : (Z.to_nat (mFrameWidth d2 * mFrameHeight d2)
                  + Z.to_nat (mFrameWidth d2 * mFrameHeight d2) / 2
                  <= length dst)%nat)
    by (rewrite Hw2, Hh2; exact Hroom).
  destruct Hfmt as [H21 | [H12 Heven]].
  - rewrite (getCurrentPreviewFrame_NV21 _ _ _ _ frame buf d2 h1 s dst
               Hst Hf2 Hne Hs Hbuf1 H02 Hm2 Hls2 Hld2)
      by (rewrite Hpf2; exact H21).
    rewrite Hw2, Hh2, H21. fold n. cbn. unfold preview_of_nv21.
    rewrite take_ge by lia. reflexivity.
  - rewrite (getCurrentPreviewFrame_NV12 _ _ _ _ frame buf d2 h1 s dst
               Hst Hf2 Hne Hs Hbuf1 H02 Hm2 Hls2 Hld2)
      by (rewrite ?Hpf2, ?Hw2, ?Hh2; assumption).
    rewrite Hw2, Hh2, H12. reflexivity.
Qed.

Lemma start_then_read_witness :
  let h : gmap nat (list byte) := {[ 7%nat := replicate 12 "000"%byte ]} in
  let r := commonStartDevice 4 2 V4L2_PIX_FMT_NV12
             (Mem.NewGives sample_byte) (V4L2Camera_ctor 0 0 0 0 0) h in
  r = (NO_ERROR, r.1.2, r.2) /\
  exists frame s,
    mCurrentFrame r.1.2 = Some frame /\ r.2 !! frame = Some s /\
    length s = 12%nat /\
    getCurrentPreviewFrame false no_converter no_converter no_converter
      no_converter (Some 7%nat) (set_mState ECDS_STARTED r.1.2) r.2
    = Some (OK, <[7%nat := preview_of_nv12 8 s ++ []]> r.2).
Proof.
  cbv zeta.
  assert (Hr : commonStartDevice 4 2 V4L2_PIX_FMT_NV12
                 (Mem.NewGives sample_byte) (V4L2Camera_ctor 0 0 0 0 0)
                 {[ 7%nat := replicate 12 "000"%byte ]}
               = (NO_ERROR,
                  (commonStartDevice 4 2 V4L2_PIX_FMT_NV12
                     (Mem.NewGives sample_byte) (V4L2Camera_ctor 0 0 0 0 0)
                     {[ 7%nat := replicate 12 "000"%byte ]}).1.2,
                  (commonStartDevice 4 2 V4L2_PIX_FMT_NV12
                     (Mem.NewGives sample_byte) (V4L2Camera_ctor 0 0 0 0 0)
                     {[ 7%nat := replicate 12 "000"%byte ]}).2))
    by (vm_compute; reflexivity).
  split; [exact Hr |].
  exact (start_then_read no_converter no_converter no_converter no_converter
           4 2 V4L2_PIX_FMT_NV12 (Mem.NewGives sample_byte)
           (V4L2Camera_ctor 0 0 0 0 0) _ _ _ 7%nat
           (replicate 12 "000"%byte) Hr eq_refl ltac:(lia)
           ltac:(unfold INT_MAX; lia) ltac:(vm_compute; lia)
           (or_intror (conj eq_refl eq_refl))).
Defined.

(** ** Reading twice *)

Lemma memcpy_Some h dst src n s d :
  h !! src = Some s -> h !! dst = Some d -> 0 <= n ->
  (Z.to_nat n <= length s)%nat -> (Z.to_nat n <= length d)%nat ->
  dst <> src \/ n = 0 ->
  Mem.memcpy h dst src n
  = Some (<[dst := take (Z.to_nat n) s ++ drop (Z.to_nat n) d]> h).
Proof.
  intros Hs Hd Hn Hls Hld Hdist. unfold Mem.memcpy.
  destruct (n <? 0) eqn:Hneg; [apply Z.ltb_lt in Hneg; lia |].
  rewrite Hs, Hd. cbn.
  assert (H1 : (n <=? Z.of_nat (length s)) = true) by (apply Z.leb_le; lia).
  assert (H2 : (n <=? Z.of_nat (length d)) = true) by (apply Z.leb_le; lia).
  rewrite H1, H2. cbn.
  destruct Hdist as [Hne | ->].
  - rewrite bool_decide_eq_false_2 by exact Hne. reflexivity.
  - rewrite andb_false_r. reflexivity.
Qed.

Lemma memcpy_again h dst src n h1 :
  Mem.memcpy h dst src n = Some h1 -> Mem.memcpy h1 dst src n = Some h1.
Proof.
  intros Hm. destruct (memcpy_Some_inv _ _ _ _ _ Hm)
    as (s & d & Hs & Hd & Hn & Hls & Hld & Hdist & ->).
  set (x := take (Z.to_nat n) s ++ drop (Z.to_nat n) d).
  assert (Hx : length x = length d).
  { unfold x. rewrite length_app, length_take, length_drop. lia. }
  assert (Hdrop : drop (Z.to_nat n) x = drop (Z.to_nat n) d).
  { unfold x. apply drop_app_length'. rewrite length_take. lia. }
  destruct (decide (dst = src)) as [-> | Hne].
  - destruct Hdist as [Hne | ->]; [congruence |].
    assert (Hx0 : <[src := x]> h !! src = Some x) by apply lookup_insert_eq.
    rewrite (memcpy_Some _ src src 0 x x Hx0 Hx0 ltac:(lia)
               ltac:(cbn; lia) ltac:(cbn; lia) (or_intror eq_refl)).
    cbn. rewrite insert_insert_eq. reflexivity.
  - assert (Hs1 : <[dst := x]> h !! src = Some s)
      by (rewrite lookup_insert_ne by congruence; exact Hs).
    assert (Hd1 : <[dst := x]> h !! dst = Some x) by apply lookup_insert_eq.
    rewrite (memcpy_Some _ dst src n s x Hs1 Hd1 Hn Hls ltac:(lia)
               (or_introl Hne)).
    rewrite Hdrop, insert_insert_eq. reflexivity.
Qed.

Lemma NV12ToNV21_again h nv12 nv21 w hgt h1 :
  NV12ToNV21 h nv12 nv21 w hgt = Some h1 ->
  NV12ToNV21 h1 nv12 nv21 w hgt = Some h1.
Proof.
  intros Hconv.
  destruct (proj1 (NV12ToNV21_is_Some_iff h nv12 nv21 w hgt)
              (ex_intro _ h1 Hconv))
    as (H0 & Hdist & s & d & Hs & Hd & Hls & Hld).
  destruct (decide (nv12 = nv21)) as [-> | Hne].
  - destruct Hdist as [Hne | Hz]; [congruence |].
    assert (Hform : forall hh, NV12ToNV21 hh nv21 nv21 w hgt
                               = Mem.memcpy hh nv21 nv21 0).
    { intros hh. unfold NV12ToNV21. rewrite Hz.
      change (pair_indices (idiv 0 2)) with (@nil Z).
      destruct (Mem.memcpy hh nv21 nv21 0); reflexivity. }
    rewrite Hform in Hconv |- *. exact (memcpy_again _ _ _ _ _ Hconv).
  - rewrite (NV12ToNV21_result h nv12 nv21 w hgt s d) in Hconv
      by assumption.
    apply (inj Some) in Hconv. subst h1.
    set (n := Z.to_nat (imul w hgt)) in *.
    set (k := chroma_pairs w hgt) in *.
    set (pre := take n s ++ swap_pairs (take (2 * k) (drop n s))).
    assert (Hreach : NV12ToNV21_reach w hgt = (n + 2 * k)%nat) by reflexivity.
    assert (Hpre : length pre = (n + 2 * k)%nat).
    { unfold pre. rewrite length_app, swap_pairs_length, !length_take,
        length_drop. lia. }
    assert (E : take n s ++ swap_pairs (take (2 * k) (drop n s))
                  ++ drop (n + 2 * k) d = pre ++ drop (n + 2 * k) d)
      by (unfold pre; rewrite <- app_assoc; reflexivity).
    rewrite E.
    rewrite (NV12ToNV21_result _ nv12 nv21 w hgt s
               (pre ++ drop (n + 2 * k) d)); try assumption.
    + fold n k. rewrite insert_insert_eq. f_equal. f_equal.
      rewrite app_assoc. fold pre. f_equal.
      apply drop_app_length'. symmetry. exact Hpre.
    + rewrite lookup_insert_ne by congruence. exact Hs.
    + apply lookup_insert_eq.
    + rewrite length_app, Hpre, length_drop. lia.
Qed.

(** A read-out that has a result can be repeated at once with the very
    same result: with [PREVIEW_FMT_RGBA32] off, [getCurrentPreviewFrame]
    run again on the store it has produced returns the same status and
    leaves that store as it is. *)
Theorem getCurrentPreviewFrame_again
    (YV12ToRGB32 YU12ToRGB32 NV21ToRGB32 NV12ToRGB32 : converter)
    (buffer : ptr) (d : V4L2Camera) (h h1 : gmap nat (list byte))
    (res : status_t) :
  getCurrentPreviewFrame false YV12ToRGB32 YU12ToRGB32 NV21ToRGB32
    NV12ToRGB32 buffer d h = Some (res, h1) ->
  getCurrentPreviewFrame false YV12ToRGB32 YU12ToRGB32 NV21ToRGB32
    NV12ToRGB32 buffer d h1 = Some (res, h1).
Proof.
  unfold getCurrentPreviewFrame.
  destruct (isStarted d); cbn; [| intros [= <- <-]; reflexivity].
  destruct (mCurrentFrame d) as [frame |];
    [| intros [= <- <-]; reflexivity].
  destruct buffer as [buf |]; [| intros [= <- <-]; reflexivity].
  destruct (mPixelFormat d =? V4L2_PIX_FMT_NV21).
  - destruct (Mem.memcpy h buf frame _) as [h2 |] eqn:Hm; cbn;
      [| discriminate].
    intros [= <- <-]. rewrite (memcpy_again _ _ _ _ _ Hm). reflexivity.
  - destruct (mPixelFormat d =? V4L2_PIX_FMT_NV12).
    + destruct (NV12ToNV21 h frame buf _ _) as [h2 |] eqn:Hc; cbn;
        [| discriminate].
      intros [= <- <-]. rewrite (NV12ToNV21_again _ _ _ _ _ _ Hc).
      reflexivity.
    + intros [= <- <-]. reflexivity.
Qed.

Lemma getCurrentPreviewFrame_again_witness :
  let sc := sample_scene 4 2 V4L2_PIX_FMT_NV12 in
  let out := ["000"; "001"; "002"; "003"; "004"; "005"; "006"; "007";
              "009"; "008"; "011"; "010"]%byte in
  let h1 := <[1%nat := out]> sc.1.2 in
  getCurrentPreviewFrame false no_converter no_converter no_converter
    no_converter (Some 1%nat) sc.1.1 sc.1.2 = Some (OK, h1) /\
  getCurrentPreviewFrame false no_converter no_converter no_converter
    no_converter (Some 1%nat) sc.1.1 h1 = Some (OK, h1).
Proof.
  cbv zeta.
  assert (H1 : getCurrentPreviewFrame false no_converter no_converter
                 no_converter no_converter (Some 1%nat)
                 (sample_scene 4 2 V4L2_PIX_FMT_NV12).1.1
                 (sample_scene 4 2 V4L2_PIX_FMT_NV12).1.2
               = Some (OK, <[1%nat := ["000"; "001"; "002"; "003"; "004";
                                       "005"; "006"; "007"; "009"; "008";
                                       "011"; "010"]%byte]>
                             (sample_scene 4 2 V4L2_PIX_FMT_NV12).1.2))
    by (vm_compute; reflexivity).
  split; [exact H1 |].
  exact (getCurrentPreviewFrame_again _ _ _ _ _ _ _ _ _ H1).
Defined.

(** ** The control channel: readyToRun and stopThread *)

(** What a successful [stopThread] has done. *)
Lemma stopThread_NO_ERROR_inv ts env wt :
  (stopThread ts env wt).1.1 = NO_ERROR ->
  0 <= mThreadControl wt /\
  (sys_write env (mThreadControl wt) ts sizeof_ControlMessage).1
    = sizeof_ControlMessage /\
  requestExitAndWait env = NO_ERROR /\
  (stopThread ts env wt).1.2
    = mkWorkerThread (-1)
        (if mControlFD wt >=? 0 then -1 else mControlFD wt) /\
  (stopThread ts env wt).2
    = EvWrite (mThreadControl wt) ts sizeof_ControlMessage
      :: EvRequestExitAndWait :: EvClose (mThreadControl wt)
      :: (if mControlFD wt >=? 0 then [EvClose (mControlFD wt)] else []).
Proof.
  unfold stopThread.
  destruct (mThreadControl wt >=? 0) eqn:Htc; [| discriminate].
  destruct (sys_write env (mThreadControl wt) ts sizeof_ControlMessage)
    as [wres errno]. cbn [fst snd].
  destruct (wres =? sizeof_ControlMessage) eqn:Hw.
  - destruct (requestExitAndWait env =? NO_ERROR) eqn:Hj.
    + intros _. apply Z.eqb_eq in Hw, Hj. apply Z.geb_le in Htc.
      destruct (mControlFD wt >=? 0); cbn; repeat split; assumption || lia.
    + cbn. intros Hj'. apply Z.eqb_neq in Hj. contradiction.
  - cbn. destruct (errno =? 0) eqn:He; [discriminate |].
    apply Z.eqb_neq in He. intros He'. contradiction.
Qed.

(** [stopThread] answers [NO_ERROR] only after the whole [THREAD_STOP]
    message has been written to a valid control descriptor and the thread
    has been joined; both descriptors are then closed, each once and the
    write end first, and neither is left valid. *)
Theorem stopThread_success_closes_both
    (THREAD_STOP : ControlMessage) (env : ThreadEnv) (wt : WorkerThread) :
  (stopThread THREAD_STOP env wt).1.1 = NO_ERROR ->
  0 <= mThreadControl wt /\
  (sys_write env (mThreadControl wt) THREAD_STOP sizeof_ControlMessage).1
    = sizeof_ControlMessage /\
  requestExitAndWait env = NO_ERROR /\
  mThreadControl (stopThread THREAD_STOP env wt).1.2 = -1 /\
  mControlFD (stopThread THREAD_STOP env wt).1.2 < 0 /\
  (stopThread THREAD_STOP env wt).2
    = EvWrite (mThreadControl wt) THREAD_STOP sizeof_ControlMessage
      :: EvRequestExitAndWait :: EvClose (mThreadControl wt)
      :: (if mControlFD wt >=? 0 then [EvClose (mControlFD wt)] else []).
Proof.
  intros Hok.
  destruct (stopThread_NO_ERROR_inv _ _ _ Hok)
    as (Htc & Hw & Hj & Hwt & Htr).
  repeat (split; [assumption |]).
  rewrite Hwt. cbn. split; [reflexivity |]. split; [| exact Htr].
  destruct (mControlFD wt >=? 0) eqn:Hc; [lia |].
  destruct (Z.geb_spec (mControlFD wt) 0); [discriminate | lia].
Qed.

Lemma stopThread_success_closes_both_witness :
  let wt := mkWorkerThread 4 3 in
  let r := stopThread 0 (sample_env ∅ 0) wt in
  r.1.1 = NO_ERROR /\ r.1.2 = mkWorkerThread (-1) (-1) /\
  r.2 = [EvWrite 4 0 4; EvRequestExitAndWait; EvClose 4; EvClose 3].
Proof.
  cbv zeta.
  destruct (stopThread_success_closes_both 0 (sample_env ∅ 0)
              (mkWorkerThread 4 3) eq_refl) as (_ & _ & _ & _ & _ & Htr).
  split; [reflexivity |]. split; [reflexivity | exact Htr].
Defined.

(** A [stopThread] that fails leaves both descriptors as they were and
    closes nothing, so the stop can be tried again. *)
Theorem stopThread_failure_keeps_channel
    (THREAD_STOP : ControlMessage) (env : ThreadEnv) (wt : WorkerThread) :
  (stopThread THREAD_STOP env wt).1.1 <> NO_ERROR ->
  (stopThread THREAD_STOP env wt).1.2 = wt /\
  forall fd, EvClose fd ∉ (stopThread THREAD_STOP env wt).2.
Proof.
  unfold stopThread.
  destruct (mThreadControl wt >=? 0) eqn:Htc.
  - destruct (sys_write env (mThreadControl wt) THREAD_STOP
                sizeof_ControlMessage) as [wres errno].
    destruct (wres =? sizeof_ControlMessage).
    + destruct (requestExitAndWait env =? NO_ERROR) eqn:Hj.
      * apply Z.eqb_eq in Hj.
        destruct (mThreadControl wt >=? 0), (mControlFD wt >=? 0); cbn;
          intros Hne; contradiction.
      * cbn. intros _. split; [reflexivity |]. intros fd Hin.
        repeat (apply elem_of_cons in Hin; destruct Hin as [[=] | Hin]).
        apply elem_of_nil in Hin. exact Hin.
    + cbn. intros _. split; [reflexivity |]. intros fd Hin.
      repeat (apply elem_of_cons in Hin; destruct Hin as [[=] | Hin]).
      apply elem_of_nil in Hin. exact Hin.
  - cbn. intros _. split; [reflexivity |]. intros fd Hin.
    apply elem_of_nil in Hin. exact Hin.
Qed.

Lemma stopThread_failure_keeps_channel_witness :
  let wt := mkWorkerThread (-1) (-1) in
  let r := stopThread 0 (sample_env ∅ 0) wt in
  r.1.1 = EINVAL /\ r.1.1 <> NO_ERROR /\ r.1.2 = wt.
Proof.
  cbv zeta.
  assert (Hne : (stopThread 0 (sample_env ∅ 0) (mkWorkerThread (-1) (-1))).1.1
                <> NO_ERROR) by (vm_compute; discriminate).
  destruct (stopThread_failure_keeps_channel 0 (sample_env ∅ 0)
              (mkWorkerThread (-1) (-1)) Hne) as (Hwt & _).
  split; [reflexivity |]. split; [exact Hne | exact Hwt].
Defined.

(** Opening and closing the control channel: when [pipe] delivers two
    valid descriptors, the message is written in full and the thread is
    joined, [readyToRun] followed by [stopThread] succeeds twice, writes
    [THREAD_STOP] to the write end, closes the write end and then the read
    end, and leaves the worker with both descriptors at -1. *)
Theorem readyToRun_then_stopThread
    (THREAD_STOP : ControlMessage) (env : ThreadEnv) (wt : WorkerThread)
    (errno rd wr : Z) :
  sys_pipe env = (0, errno, rd, wr) -> 0 <= rd -> 0 <= wr ->
  (sys_write env wr THREAD_STOP sizeof_ControlMessage).1
    = sizeof_ControlMessage ->
  requestExitAndWait env = NO_ERROR ->
  let r1 := readyToRun env wt in
  let r2 := stopThread THREAD_STOP env r1.1.2 in
  r1 = (NO_ERROR, mkWorkerThread wr rd, [EvPipe]) /\
  r2 = (NO_ERROR, mkWorkerThread (-1) (-1),
        [EvWrite wr THREAD_STOP sizeof_ControlMessage;
         EvRequestExitAndWait; EvClose wr; EvClose rd]).
Proof.
  intros Hpipe Hrd Hwr Hwrite Hjoin. cbv zeta.
  unfold readyToRun. rewrite Hpipe. cbn.
  split; [reflexivity |].
  unfold stopThread. cbn.
  assert (Hwr' : (wr >=? 0) = true) by (apply Z.geb_le; lia).
  assert (Hrd' : (rd >=? 0) = true) by (apply Z.geb_le; lia).
  rewrite Hwr'.
  destruct (sys_write env wr THREAD_STOP sizeof_ControlMessage)
    as [wres e]. cbn in Hwrite. subst wres.
  rewrite Z.eqb_refl, Hjoin. cbn. rewrite Hrd'. reflexivity.
Qed.

Lemma readyToRun_then_stopThread_witness :
  let env := sample_env ∅ 0 in
  let r1 := readyToRun env (mkWorkerThread (-1) (-1)) in
  sys_pipe env = (0, 0, 3, 4) /\
  r1 = (NO_ERROR, mkWorkerThread 4 3, [EvPipe]) /\
  stopThread 0 env r1.1.2
  = (NO_ERROR, mkWorkerThread (-1) (-1),
     [EvWrite 4 0 4; EvRequestExitAndWait; EvClose 4; EvClose 3]).
Proof.
  cbv zeta. split; [reflexivity |].
  exact (readyToRun_then_stopThread 0 (sample_env ∅ 0)
           (mkWorkerThread (-1) (-1)) 0 3 4 eq_refl ltac:(lia) ltac:(lia)
           eq_refl eq_refl).
Defined.

(** ** Select: every answer and what it takes *)

(** The answer of [Select], case by case. *)
Lemma Select_cases ts env wt fd timeout :
  let sel := sys_select env (Select_fd_num wt fd) (Select_fds wt fd)
               (Select_tvp timeout) in
  let rd := sys_read env (mControlFD wt) sizeof_ControlMessage in
  let ev_s := EvSelect (Select_fd_num wt fd) (Select_fds wt fd)
                (Select_tvp timeout) in
  let ev_r := EvRead (mControlFD wt) sizeof_ControlMessage in
  Select ts env wt fd timeout =
    if sel.1 <? 0 then (ERROR, [ev_s])
    else if sel.1 =? 0 then (TIMEOUT, [ev_s])
    else if bool_decide (mControlFD wt ∈ sel.2) then
      if (rd.1 =? sizeof_ControlMessage) && (rd.2 =? ts)
      then (EXIT_THREAD, [ev_s; ev_r]) else (ERROR, [ev_s; ev_r])
    else (READY, [ev_s]).
Proof.
  cbv zeta. unfold Select, FD_ISSET.
  destruct (sys_select env (Select_fd_num wt fd) (Select_fds wt fd)
              (Select_tvp timeout)) as [res fds]. cbn [fst snd].
  destruct (res <? 0); [reflexivity |].
  destruct (res =? 0); [reflexivity |].
  destruct (bool_decide (mControlFD wt ∈ fds)); [| reflexivity].
  destruct (sys_read env (mControlFD wt) sizeof_ControlMessage)
    as [n msg]. cbn [fst snd].
  destruct (n =? sizeof_ControlMessage); cbn; [| reflexivity].
  destruct (msg =? ts); reflexivity.
Qed.

(** When [select] reports no ready descriptor, [Select] reads nothing: it
    answers [TIMEOUT] for a result of zero and [ERROR] for a negative
    one, having made the one [select] call only. *)
Theorem Select_without_readiness
    (THREAD_STOP : ControlMessage) (env : ThreadEnv) (wt : WorkerThread)
    (fd timeout : Z) :
  let sel := sys_select env (Select_fd_num wt fd) (Select_fds wt fd)
               (Select_tvp timeout) in
  sel.1 <= 0 ->
  Select THREAD_STOP env wt fd timeout
  = (if sel.1 =? 0 then TIMEOUT else ERROR,
     [EvSelect (Select_fd_num wt fd) (Select_fds wt fd)
        (Select_tvp timeout)]).
Proof.
  cbv zeta. intros Hres. rewrite Select_cases. cbv zeta.
  destruct (_ <? 0) eqn:Hneg.
  - apply Z.ltb_lt in Hneg.
    destruct (_ =? 0) eqn:Hz; [apply Z.eqb_eq in Hz; lia | reflexivity].
  - apply Z.ltb_ge in Hneg.
    destruct (_ =? 0) eqn:Hz; [reflexivity | apply Z.eqb_neq in Hz; lia].
Qed.

Lemma Select_without_readiness_witness :
  let env := sample_env ∅ 0 in
  let wt := mkWorkerThread 4 3 in
  (sys_select env (Select_fd_num wt 9) (Select_fds wt 9)
     (Select_tvp 250000)).1 <= 0 /\
  Select 0 env wt 9 250000
  = (TIMEOUT, [EvSelect 10 {[9; 3]} (Some (0, 250000))]).
Proof.
  cbv zeta.
  assert (H : (sys_select (sample_env ∅ 0)
                 (Select_fd_num (mkWorkerThread 4 3) 9)
                 (Select_fds (mkWorkerThread 4 3) 9)
                 (Select_tvp 250000)).1 <= 0)
    by (vm_compute; discriminate).
  split; [exact H |].
  rewrite (Select_without_readiness 0 (sample_env ∅ 0)
             (mkWorkerThread 4 3) 9 250000 H).
  reflexivity.
Defined.


(** [Select] answers [EXIT_THREAD] exactly when [select] reports
    readiness with the control descriptor set, the [read] delivers a whole
    message and that message is [THREAD_STOP]. *)
Theorem Select_EXIT_THREAD_iff
    (THREAD_STOP : ControlMessage) (env : ThreadEnv) (wt : WorkerThread)
    (fd timeout : Z) :
  let sel := sys_select env (Select_fd_num wt fd) (Select_fds wt fd)
               (Select_tvp timeout) in
  let rd := sys_read env (mControlFD wt) sizeof_ControlMessage in
  (Select THREAD_STOP env wt fd timeout).1 = EXIT_THREAD <->
  0 < sel.1 /\ mControlFD wt ∈ sel.2 /\
  rd.1 = sizeof_ControlMessage /\ rd.2 = THREAD_STOP.
Proof.
  cbv zeta. rewrite Select_cases. cbv zeta.
  destruct (_ <? 0) eqn:Hneg.
  { apply Z.ltb_lt in Hneg. cbn. split; [discriminate |].
    intros [H _]. lia. }
  apply Z.ltb_ge in Hneg.
  destruct (_ =? 0) eqn:Hz.
  { apply Z.eqb_eq in Hz. cbn. split; [discriminate |].
    intros [H _]. lia. }
  apply Z.eqb_neq in Hz.
  destruct (bool_decide _) eqn:Hctl.
  - apply bool_decide_eq_true in Hctl.
    destruct (_ =? sizeof_ControlMessage) eqn:Hn; cbn.
    + apply Z.eqb_eq in Hn.
      destruct (_ =? THREAD_STOP) eqn:Hm; cbn.
      * apply Z.eqb_eq in Hm. split; [intros _ | reflexivity].
        repeat split; try assumption. lia.
      * apply Z.eqb_neq in Hm. split; [discriminate |].
        intros (_ & _ & _ & H). contradiction.
    + apply Z.eqb_neq in Hn. split; [discriminate |].
      intros (_ & _ & H & _). contradiction.
  - apply bool_decide_eq_false in Hctl. cbn. split; [discriminate |].
    intros (_ & H & _). contradiction.
Qed.

(** The timeout handed to [select]: none for a [timeout] of zero, which
    waits without limit; otherwise seconds and microseconds that add up to
    [timeout], the microseconds below a second in magnitude and both of
    the sign of [timeout] (a negative one is passed on as it is). *)
Theorem Select_tvp_splits (timeout : Z) :
  (timeout = 0 -> Select_tvp timeout = None) /\
  (timeout <> 0 ->
   exists sec usec,
     Select_tvp timeout = Some (sec, usec) /\
     sec * 1000000 + usec = timeout /\ Z.abs usec < 1000000 /\
     (0 < timeout -> 0 <= sec /\ 0 <= usec) /\
     (timeout < 0 -> sec <= 0 /\ usec <= 0)).
Proof.
  unfold Select_tvp. split.
  - intros ->. reflexivity.
  - intros Hnz. apply Z.eqb_neq in Hnz. rewrite Hnz.
    exists (Z.quot timeout 1000000), (Z.rem timeout 1000000).
    split; [reflexivity |].
    pose proof (Z.quot_rem' timeout 1000000) as Hqr.
    pose proof (Z.rem_bound_abs timeout 1000000 ltac:(lia)) as Hab.
    split; [lia |]. split; [exact Hab |]. split.
    + intros Hpos.
      pose proof (Z.quot_pos timeout 1000000 ltac:(lia) ltac:(lia)).
      pose proof (Z.rem_nonneg timeout 1000000 ltac:(lia) ltac:(lia)). lia.
    + intros Hneg.
      pose proof (Z.quot_opp_l timeout 1000000 ltac:(lia)) as Hq.
      pose proof (Z.quot_pos (- timeout) 1000000 ltac:(lia) ltac:(lia)).
      pose proof (Z.rem_opp_l timeout 1000000 ltac:(lia)) as Hr.
      pose proof (Z.rem_nonneg (- timeout) 1000000 ltac:(lia) ltac:(lia)).
      lia.
Qed.



(** ** startDeliveringFrames and stopDeliveringFrames *)

(** [startDeliveringFrames] clears [mThreadRunning] before it tests
    anything.  So whatever it has answered, a [stopDeliveringFrames] that
    follows at once (no picture being taken) waits on
    [mCondThreadRunning] for the worker to announce itself; after a start
    refused with [EINVAL] on a device that is not Started, no thread has
    been started that would. *)
Theorem stop_after_startDeliveringFrames_waits
    (THREAD_STOP : ControlMessage) (env : ThreadEnv) (one_burst : bool)
    (d d' : V4L2Camera) (res : status_t) (tr : list event) :
  startDeliveringFrames env one_burst d = Returns res d' tr ->
  mTakingPicture d = false ->
  d' = set_mThreadRunning false d /\
  stopDeliveringFrames THREAD_STOP env d' = Waits mCondThreadRunning /\
  (isStarted d = false -> res = EINVAL /\ tr = []).
Proof.
  unfold startDeliveringFrames, startWorkerThread.
  intros Hstart Htp.
  assert (Hd' : d' = set_mThreadRunning false d).
  { revert Hstart.
    destruct (isStarted (set_mThreadRunning false d)); cbn;
      [| intros [= _ <- _]; reflexivity].
    destruct (isInitialized (set_mThreadRunning false d)); cbn;
      [| intros [= _ <- _]; reflexivity].
    destruct (mWorkerThread d) as [wt |]; [| discriminate].
    intros Heq. injection Heq as _ <- _. reflexivity. }
  split; [exact Hd' |]. split.
  - subst d'. unfold stopDeliveringFrames, stopDeliveringFrames_running.
    cbn. rewrite Htp. reflexivity.
  - intros Hns. revert Hstart.
    assert (Hns' : isStarted (set_mThreadRunning false d) = false)
      by exact Hns.
    rewrite Hns'. cbn. intros [= <- _ <-]. split; reflexivity.
Qed.

Lemma stop_after_startDeliveringFrames_waits_witness :
  let env := sample_env ∅ 0 in
  let d := set_mThreadRunning true
             (Initialize (Some (mkWorkerThread 4 3))
                (V4L2Camera_ctor 0 0 0 0 0)).1.2 in
  mThreadRunning d = true /\ mTakingPicture d = false /\
  startDeliveringFrames env false d
  = Returns EINVAL (set_mThreadRunning false d) [] /\
  stopDeliveringFrames 0 env (set_mThreadRunning false d)
  = Waits mCondThreadRunning.
Proof.
  cbv zeta.
  assert (Hs : startDeliveringFrames (sample_env ∅ 0) false
                 (set_mThreadRunning true
                    (Initialize (Some (mkWorkerThread 4 3))
                       (V4L2Camera_ctor 0 0 0 0 0)).1.2)
               = Returns EINVAL
                   (set_mThreadRunning false
                      (set_mThreadRunning true
                         (Initialize (Some (mkWorkerThread 4 3))
                            (V4L2Camera_ctor 0 0 0 0 0)).1.2)) [])
    by reflexivity.
  destruct (stop_after_startDeliveringFrames_waits 0 _ _ _ _ _ _ Hs eq_refl)
    as (_ & Hwait & _).
  split; [reflexivity |]. split; [reflexivity |].
  split; [exact Hs | exact Hwait].
Defined.

Lemma stopThread_failure_same ts env wt :
  (stopThread ts env wt).1.1 <> NO_ERROR -> (stopThread ts env wt).1.2 = wt.
Proof.
  unfold stopThread.
  destruct (mThreadControl wt >=? 0); [| reflexivity].
  destruct (sys_write env (mThreadControl wt) ts sizeof_ControlMessage)
    as [wres errno].
  destruct (wres =? sizeof_ControlMessage); [| reflexivity].
  destruct (requestExitAndWait env =? NO_ERROR) eqn:Hj; [| reflexivity].
  apply Z.eqb_eq in Hj.
  destruct (mThreadControl wt >=? 0), (mControlFD wt >=? 0); cbn;
    intros Hne; contradiction.
Qed.

(** [stopDeliveringFrames], when it returns, whether at once or resumed
    after either of its waits, has changed nothing of the device the
    caller found when it last looked at it (at entry, or at the wake-up)
    but the worker: frame pointer, frame attributes, [mState], the three
    flags and the time stamp are as before (a device whose thread was
    stopped is still Started), and after any answer other than
    [NO_ERROR] the whole device is as before. *)
Theorem stopDeliveringFrames_keeps_device
    (THREAD_STOP : ControlMessage) (env : ThreadEnv)
    (d d' : V4L2Camera) (res : status_t) (tr : list event) :
  stopDeliveringFrames THREAD_STOP env d = Returns res d' tr \/
  (exists cv, stopDeliveringFrames_resume THREAD_STOP env cv d
              = Returns res d' tr) ->
  (exists w, d' = set_mWorkerThread w d) /\
  isStarted d' = isStarted d /\
  (res <> NO_ERROR -> d' = d).
Proof.
  intros Hcall.
  assert (Hstop : stopDeliveringFrames_stop THREAD_STOP env d
                  = Returns res d' tr).
  { destruct Hcall as [Hnow | [cv Hres]].
    - revert Hnow. unfold stopDeliveringFrames, stopDeliveringFrames_running.
      destruct (mTakingPicture d); [discriminate |].
      destruct (mThreadRunning d); [exact id | discriminate].
    - destruct cv; cbn in Hres; [| exact Hres].
      revert Hres. unfold stopDeliveringFrames_running.
      destruct (mThreadRunning d); [exact id | discriminate]. }
  clear Hcall.
  assert (Hid : d = set_mWorkerThread (mWorkerThread d) d)
    by (destruct d; reflexivity).
  assert (Hsame_dev : d' = d ->
            (exists w, d' = set_mWorkerThread w d) /\
            isStarted d' = isStarted d /\
            (res <> NO_ERROR -> d' = d)).
  { intros ->. split; [exists (mWorkerThread d); exact Hid |].
    split; [reflexivity |]. intros _. reflexivity. }
  unfold stopDeliveringFrames_stop, stopWorkerThread in Hstop.
  destruct (negb (isStarted d)); cbn in Hstop;
    [apply Hsame_dev; congruence |].
  destruct (isInitialized d); cbn in Hstop;
    [| apply Hsame_dev; congruence].
  destruct (getWorkerThread d) as [wt |] eqn:Hwt; [| discriminate].
  destruct (stopThread THREAD_STOP env wt) as [[r wt'] tr'] eqn:Hst.
  injection Hstop as <- <- _.
  split; [exists (Some wt'); reflexivity |].
  split; [reflexivity |].
  intros Hne.
  pose proof (stopThread_failure_same THREAD_STOP env wt) as Hsame.
  rewrite Hst in Hsame. cbn in Hsame. rewrite (Hsame Hne).
  unfold getWorkerThread in Hwt. rewrite <- Hwt. symmetry. exact Hid.
Qed.

Lemma stopDeliveringFrames_keeps_device_witness :
  let env := sample_env ∅ 0 in
  let d := set_mState ECDS_STARTED
             (Initialize (Some (mkWorkerThread 4 3))
                (V4L2Camera_ctor 0 0 0 0 0)).1.2 in
  let d' := set_mWorkerThread (Some (mkWorkerThread (-1) (-1))) d in
  stopDeliveringFrames 0 env d = Waits mCondThreadRunning /\
  stopDeliveringFrames_resume 0 env mCondThreadRunning d
  = Returns NO_ERROR d'
      [EvWrite 4 0 4; EvRequestExitAndWait; EvClose 4; EvClose 3] /\
  (exists w, d' = set_mWorkerThread w d) /\
  isStarted d' = true.
Proof.
  cbv zeta.
  assert (Hs : stopDeliveringFrames_resume 0 (sample_env ∅ 0)
                 mCondThreadRunning
                 (set_mState ECDS_STARTED
                    (Initialize (Some (mkWorkerThread 4 3))
                       (V4L2Camera_ctor 0 0 0 0 0)).1.2)
               = Returns NO_ERROR
                   (set_mWorkerThread (Some (mkWorkerThread (-1) (-1)))
                      (set_mState ECDS_STARTED
                         (Initialize (Some (mkWorkerThread 4 3))
                            (V4L2Camera_ctor 0 0 0 0 0)).1.2))
                   [EvWrite 4 0 4; EvRequestExitAndWait; EvClose 4;
                    EvClose 3]) by reflexivity.
  split; [reflexivity |]. split; [exact Hs |].
  destruct (stopDeliveringFrames_keeps_device 0 _ _ _ _ _
              (or_intror (ex_intro _ mCondThreadRunning Hs)))
    as (Hw & Hst & _).
  split; [exact Hw |]. rewrite Hst. reflexivity.
Defined.

(** On a Started device with both gates open, [stopDeliveringFrames] is
    [stopThread] on the device's worker object: same answer, same calls,
    and the worker as [stopThread] leaves it. *)
Theorem stopDeliveringFrames_started
    (THREAD_STOP : ControlMessage) (env : ThreadEnv)
    (d : V4L2Camera) (wt : WorkerThread) :
  isStarted d = true -> mTakingPicture d = false ->
  mThreadRunning d = true -> mWorkerThread d = Some wt ->
  stopDeliveringFrames THREAD_STOP env d
  = Returns (stopThread THREAD_STOP env wt).1.1
      (set_mWorkerThread (Some (stopThread THREAD_STOP env wt).1.2) d)
      (stopThread THREAD_STOP env wt).2.
Proof.
  intros Hst Htp Hrun Hwt.
  unfold stopDeliveringFrames, stopDeliveringFrames_running,
    stopDeliveringFrames_stop, stopWorkerThread, getWorkerThread.
  rewrite Htp, Hrun, Hst, Hwt. cbn.
  assert (Hi : isInitialized d = true).
  { unfold isStarted in Hst. apply bool_decide_eq_true in Hst.
    unfold isInitialized. rewrite Hst. reflexivity. }
  rewrite Hi. cbn.
  destruct (stopThread THREAD_STOP env wt) as [[r wt'] tr']. reflexivity.
Qed.

Lemma stopDeliveringFrames_started_witness :
  let env := sample_env ∅ 0 in
  let wt := mkWorkerThread 4 3 in
  let d := set_mThreadRunning true
             (set_mState ECDS_STARTED
                (Initialize (Some wt) (V4L2Camera_ctor 0 0 0 0 0)).1.2) in
  isStarted d = true /\ mWorkerThread d = Some wt /\
  stopDeliveringFrames 0 env d
  = Returns NO_ERROR
      (set_mWorkerThread (Some (mkWorkerThread (-1) (-1))) d)
      [EvWrite 4 0 4; EvRequestExitAndWait; EvClose 4; EvClose 3].
Proof.
  cbv zeta. split; [reflexivity |]. split; [reflexivity |].
  rewrite (stopDeliveringFrames_started 0 (sample_env ∅ 0)
             (set_mThreadRunning true
                (set_mState ECDS_STARTED
                   (Initialize (Some (mkWorkerThread 4 3))
                      (V4L2Camera_ctor 0 0 0 0 0)).1.2))
             (mkWorkerThread 4 3) eq_refl eq_refl eq_refl eq_refl).
  reflexivity.
Defined.
